(** * Extractors: a shallow embedding of [src/extractors/base.py]

    The module under study defines a result record ([ExtractionResult]), an
    abstract extractor ([BaseExtractor]) and three concrete extractors
    ([DatabaseExtractor], [APIExtractor], [FileExtractor]).  Each method is
    embedded as a function in a small state-and-exception monad over a
    [World] made of the store of Python dictionaries, the history of calls to
    the external collaborators (SQL engine, HTTP client, file decoders) and
    the log sink. *)

From Stdlib Require Import ZArith Ascii String List Floats.
From stdpp Require Import gmap strings list fin_maps.

Local Open Scope string_scope.
Local Open Scope Z_scope.

(** ** Python strings

    A Python [str] is a sequence of code points.  The embedding uses Rocq's
    [string], read as a sequence of code points below 256 (Latin-1), which
    is closed under every string operation the module uses. *)

Module Str.

(** One code point of [str.lower()]: the upper-case letters of Latin-1 are
    [A]..[Z] (65..90) and U+00C0..U+00DE without the multiplication sign
    U+00D7; each has its lower-case letter 32 positions further. *)
Definition lower_char (c : ascii) : ascii :=
  let n := nat_of_ascii c in
  if (((65 <=? n) && (n <=? 90))
      || ((192 <=? n) && (n <=? 222) && negb (n =? 215)))%nat
  then ascii_of_nat (n + 32) else c.

(** [s.lower()] *)
Fixpoint lower (s : string) : string :=
  match s with
  | EmptyString => EmptyString
  | String c s' => String (lower_char c) (lower s')
  end.

(** The cut of [s] at its last occurrence of [sep], when there is one. *)
Fixpoint rcut (sep : ascii) (s : string) : option (string * string) :=
  match s with
  | EmptyString => None
  | String c s' =>
      match rcut sep s' with
      | Some (a, b) => Some (String c a, b)
      | None => if Ascii.eqb c sep then Some (EmptyString, s') else None
      end
  end.

(** [s.rsplit(sep, 1)] for a one-character separator: at most one split,
    taken from the right. *)
Definition rsplit1 (sep : ascii) (s : string) : list string :=
  match rcut sep s with
  | Some (a, b) => [a; b]
  | None => [s]
  end.

(** [parts[-1]] on a list of strings; [rsplit] never returns the empty
    list, so the default is not reached from this module. *)
Definition last_part (parts : list string) : string :=
  List.last parts EmptyString.

(** [c in s] for a character. *)
Fixpoint has_char (c : ascii) (s : string) : bool :=
  match s with
  | EmptyString => false
  | String d s' => Ascii.eqb d c || has_char c s'
  end.

(** [s.lstrip(c)] for a one-character strip set. *)
Fixpoint lstrip (c : ascii) (s : string) : string :=
  match s with
  | EmptyString => EmptyString
  | String d s' => if Ascii.eqb d c then lstrip c s' else s
  end.

(** [s.rstrip(c)] for a one-character strip set. *)
Fixpoint rstrip (c : ascii) (s : string) : string :=
  match s with
  | EmptyString => EmptyString
  | String d s' =>
      match rstrip c s' with
      | EmptyString => if Ascii.eqb d c then EmptyString else String d EmptyString
      | r => String d r
      end
  end.

(** [s[:n]] *)
Definition prefix (n : nat) (s : string) : string := String.substring 0 n s.

(** [x in xs] for a list of strings. *)
Definition mem (x : string) (xs : list string) : bool :=
  existsb (String.eqb x) xs.

(** Truthiness of a [str]: non-empty. *)
Definition truthy (s : string) : bool :=
  match s with EmptyString => false | _ => true end.

(** The line feed, and a run of [n] blanks, as they occur inside the
    triple-quoted query template. *)
Definition nl : string := String (ascii_of_nat 10) EmptyString.

Fixpoint blanks (n : nat) : string :=
  match n with
  | O => EmptyString
  | S k => String " " (blanks k)
  end.

(** Characters that SQL (and Python's [str.isspace]) treat as layout. *)
Definition is_space (c : ascii) : bool :=
  let n := nat_of_ascii c in ((n =? 32) || ((9 <=? n) && (n <=? 13)))%nat.

Fixpoint all_space (s : string) : bool :=
  match s with
  | EmptyString => true
  | String c s' => is_space c && all_space s'
  end.

End Str.

(** ** Python values *)

(** Store locations of dictionary objects. *)
Definition loc := positive.

(** An instant, as a [datetime] object; only its identity matters here. *)
Definition datetime := Z.

(** The values that flow through the module: what [response.json()] can
    return, the [datetime] bound to [since], and references to dictionary
    objects held in the store. *)
#[warnings="-register-all"]
Inductive value : Type :=
  | VNone
  | VBool (b : bool)
  | VInt (z : Z)
  | VFloat (f : float)
  | VStr (s : string)
  | VList (l : list value)
  | VDict (d : list (string * value))
  | VDatetime (t : datetime)
  | VRef (l : loc).

(** The tabular container: the ordered sequence of its rows.  [len(df)] is
    the number of rows. *)
Definition DataFrame := list value.

(** [isinstance(v, dict)] *)
Definition is_mapping (v : value) : bool :=
  match v with
  | VDict _ => true
  | _ => false
  end.

(** A JSON value that is neither a sequence nor a mapping. *)
Definition is_scalar (v : value) : bool :=
  match v with
  | VList _ | VDict _ => false
  | _ => true
  end.

Module Py.

(** [bool(v)] *)
Definition truthy (v : value) : bool :=
  match v with
  | VNone => false
  | VBool b => b
  | VInt z => negb (z =? 0)
  | VFloat f => negb (PrimFloat.eqb f 0%float)
  | VStr s => Str.truthy s
  | VList l => match l with [] => false | _ => true end
  | VDict d => match d with [] => false | _ => true end
  | VDatetime _ => true
  | VRef _ => true
  end.

(** [d.get(k)] on a parsed JSON object, kept as its list of members. *)
Fixpoint dict_lookup (d : list (string * value)) (k : string) : option value :=
  match d with
  | [] => None
  | (k', v) :: d' => if String.eqb k' k then Some v else dict_lookup d' k
  end.

(** [d.get(k, dflt)] *)
Definition dict_get (d : list (string * value)) (k : string) (dflt : value) : value :=
  match dict_lookup d k with
  | Some v => v
  | None => dflt
  end.

(** The one-character strings of [iter(s)]. *)
Fixpoint chars (s : string) : list value :=
  match s with
  | EmptyString => []
  | String c s' => VStr (String c EmptyString) :: chars s'
  end.

(** [list(v)]: what [list.extend(v)] appends; [None] where Python raises
    [TypeError] because [v] is not iterable. *)
Definition iterate (v : value) : option (list value) :=
  match v with
  | VList l => Some l
  | VDict d => Some (map (fun kv => VStr (fst kv)) d)
  | VStr s => Some (chars s)
  | _ => None
  end.

End Py.

(** ** ExtractionResult *)

Record ExtractionResult : Type := mkExtractionResult {
  data : DataFrame;
  source : string;
  extracted_at : datetime;
  metadata : gmap string value;
  record_count : Z
}.

(** [__post_init__]: [self.record_count = len(self.data)] *)
Definition post_init (self : ExtractionResult) : ExtractionResult :=
  {| data := data self;
     source := source self;
     extracted_at := extracted_at self;
     metadata := metadata self;
     record_count := Z.of_nat (length (data self)) |}.

(** The generated [__init__] of the dataclass: the five fields are stored
    as given and [__post_init__] runs afterwards.  An omitted
    [record_count] is the default [0]. *)
Definition ExtractionResult_init (data : DataFrame) (source : string)
    (extracted_at : datetime) (metadata : gmap string value)
    (record_count : Z) : ExtractionResult :=
  post_init (mkExtractionResult data source extracted_at metadata record_count).

(** ** The world: store, collaborators, log sink *)

(** Exceptions.  [ValueError], [TypeError] and [KeyError] are those the
    module's own statements can raise; [Failure] stands for whatever a collaborator raises (a
    transport or HTTP status error, a JSON decoding error, a database or
    file error), tagged with its class name. *)
Inductive exn : Type :=
  | ValueError (msg : string)
  | TypeError (msg : string)
  | KeyError (key : string)
  | Failure (kind : string).

(** One call to an external collaborator, with the arguments it received.
    Dictionary arguments are recorded by content, as the collaborator reads
    them at the time of the call. *)
Inductive call : Type :=
  | pd_read_sql (sql con : string) (params : gmap string value)
  | client_get (url : string) (headers params : gmap string value)
  | pd_read_csv (path : string) (options : gmap string value)
  | pd_read_json (path : string) (options : gmap string value)
  | pd_read_parquet (path : string) (options : gmap string value)
  | pd_read_excel (path : string) (options : gmap string value).

(** One record sent to the logger [self._logger]. *)
Record log_record : Type := mkLog {
  logger : string;
  event : string;
  fields : list (string * value)
}.

(** An HTTP response: what [raise_for_status()] raises, if anything, and
    what [json()] returns or raises. *)
Record Response : Type := mkResponse {
  status_error : option exn;
  body : exn + value
}.

(** The collaborators.  Each is deterministic in the history of the calls
    made so far and in its arguments; a mocked sequence of responses is the
    instance that answers by the number of earlier calls.  [isoformat] is
    [datetime.isoformat], a pure library function.  [frame_of] is what
    [pd.DataFrame] makes of a record list that is not a list of mappings:
    a frame, or the exception it raises (as it does on a list that mixes
    mappings with other values). *)
Record Env : Type := mkEnv {
  read_sql : list call -> string -> string -> gmap string value -> exn + DataFrame;
  http_get : list call -> string -> gmap string value -> gmap string value -> exn + Response;
  read_csv : list call -> string -> gmap string value -> exn + DataFrame;
  read_json : list call -> string -> gmap string value -> exn + DataFrame;
  read_parquet : list call -> string -> gmap string value -> exn + DataFrame;
  read_excel : list call -> string -> gmap string value -> exn + DataFrame;
  utcnow : list call -> datetime;
  isoformat : datetime -> string;
  frame_of : list value -> exn + DataFrame
}.

Record World : Type := mkWorld {
  heap : gmap loc (gmap string value);
  calls : list call;
  logs : list log_record
}.

(** How a computation ends: with a value, with an exception, or not at all
    within the loop budget it was given. *)
Inductive outcome (A : Type) : Type :=
  | Return (a : A)
  | Raise (e : exn)
  | OutOfFuel.

Arguments Return {A} a.
Arguments Raise {A} e.
Arguments OutOfFuel {A}.

Definition M (A : Type) : Type := World -> outcome A * World.

Definition ret {A} (a : A) : M A := fun w => (Return a, w).

Definition raise {A} (e : exn) : M A := fun w => (Raise e, w).

Definition bind {A B} (m : M A) (k : A -> M B) : M B :=
  fun w =>
    match m w with
    | (Return a, w') => k a w'
    | (Raise e, w') => (Raise e, w')
    | (OutOfFuel, w') => (OutOfFuel, w')
    end.

Notation "'let*' x ':=' m 'in' k" := (bind m (fun x => k))
  (at level 10, x name, m at level 100, k at level 200).

(** A collaborator's answer, raised or returned. *)
Definition lift_answer {A} (r : exn + A) : M A :=
  match r with
  | inl e => raise e
  | inr a => ret a
  end.

(** The dictionary a reference denotes. *)
Definition deref (w : World) (l : loc) : gmap string value :=
  default ∅ (heap w !! l).

Definition load (l : loc) : M (gmap string value) :=
  fun w => (Return (deref w l), w).

(** A new dictionary object with content [d]. *)
Definition alloc (d : gmap string value) : M loc :=
  fun w =>
    let l := fresh (dom (heap w)) in
    (Return l, mkWorld (<[l := d]> (heap w)) (calls w) (logs w)).

(** [d[k] = v] on the dictionary object at [l]. *)
Definition setitem (l : loc) (k : string) (v : value) : M unit :=
  fun w =>
    (Return tt, mkWorld (<[l := <[k := v]> (deref w l)]> (heap w)) (calls w) (logs w)).

(** [self._logger.info(event, **fields)] *)
Definition logger_info (name ev : string) (kv : list (string * value)) : M unit :=
  fun w => (Return tt, mkWorld (heap w) (calls w) (logs w ++ [mkLog name ev kv])%list).

(** Recording a collaborator call in the history. *)
Definition record (c : call) : M unit :=
  fun w => (Return tt, mkWorld (heap w) (calls w ++ [c])%list (logs w)).

(** The history so far. *)
Definition history : M (list call) := fun w => (Return (calls w), w).

(** Leaving a loop whose budget of iterations is used up. *)
Definition out_of_fuel {A} : M A := fun w => (OutOfFuel, w).

(** [d or {}] for an optional dictionary argument: the object itself when
    it is given and non-empty, a new empty dictionary otherwise. *)
Definition or_empty (d : option loc) : M loc :=
  match d with
  | Some l =>
      let* c := load l in
      if bool_decide (c = ∅) then alloc ∅ else ret l
  | None => alloc ∅
  end.

Section Extractors.

Variable env : Env.

(** [pd.read_sql(sql, con, params=params)] *)
Definition pd_read_sql_ (sql con : string) (params : gmap string value) : M DataFrame :=
  let* h := history in
  let* _ := record (pd_read_sql sql con params) in
  lift_answer (read_sql env h sql con params).

(** [client.get(url, headers=headers, params=params)] *)
Definition client_get_ (url : string) (headers params : gmap string value) : M Response :=
  let* h := history in
  let* _ := record (client_get url headers params) in
  lift_answer (http_get env h url headers params).

(** [response.raise_for_status()] *)
Definition raise_for_status (r : Response) : M unit :=
  match status_error r with
  | Some e => raise e
  | None => ret tt
  end.

(** [response.json()] *)
Definition json (r : Response) : M value := lift_answer (body r).

Definition pd_read_csv_ (path : string) (options : gmap string value) : M DataFrame :=
  let* h := history in
  let* _ := record (pd_read_csv path options) in
  lift_answer (read_csv env h path options).

Definition pd_read_json_ (path : string) (options : gmap string value) : M DataFrame :=
  let* h := history in
  let* _ := record (pd_read_json path options) in
  lift_answer (read_json env h path options).

Definition pd_read_parquet_ (path : string) (options : gmap string value) : M DataFrame :=
  let* h := history in
  let* _ := record (pd_read_parquet path options) in
  lift_answer (read_parquet env h path options).

Definition pd_read_excel_ (path : string) (options : gmap string value) : M DataFrame :=
  let* h := history in
  let* _ := record (pd_read_excel path options) in
  lift_answer (read_excel env h path options).

(** [pd.DataFrame(records)]: a list of mappings becomes a frame with one
    row per record, in order (the empty list becomes the empty frame); on
    any other list the library decides, and may raise. *)
Definition pd_DataFrame (records : list value) : exn + DataFrame :=
  if forallb is_mapping records then inr records else frame_of env records.

(** [ExtractionResult(data=.., source=.., metadata=..)]: [extracted_at]
    comes from its default factory [datetime.utcnow] and [record_count]
    from its default [0], before [__post_init__]. *)
Definition new_result (df : DataFrame) (src : string)
    (meta : gmap string value) : M ExtractionResult :=
  let* h := history in
  ret (ExtractionResult_init df src (utcnow env h) meta 0).

End Extractors.

(** ** BaseExtractor *)

Module BaseExtractor.

(** The abstract class: a subtype provides [extract]. *)
Class t (T : Type) : Type := {
  extract : Env -> T -> M ExtractionResult
}.

(** The default [extract_incremental]: [return self.extract()]. *)
Definition extract_incremental {T} `{t T} (env : Env) (self : T)
    (since : option datetime) : M ExtractionResult :=
  extract env self.

(** [validate]: [len(result.data) > 0] *)
Definition validate (result : ExtractionResult) : bool :=
  (0 <? length (data result))%nat.

End BaseExtractor.

(** ** DatabaseExtractor *)

Module DatabaseExtractor.

Record t : Type := mk {
  name : string;
  connection_string : string;
  query : string;
  params : loc
}.

Definition init (name connection_string query : string)
    (params : option loc) : M t :=
  let* p := or_empty params in
  ret (mk name connection_string query p).

Section Methods.

Variable env : Env.

Definition extract (self : t) : M ExtractionResult :=
  let* _ := logger_info (name self) "Extracting data"
              [("query", VStr (Str.prefix 100 (query self)))] in
  let* p := load (params self) in
  let* df := pd_read_sql_ env (query self) (connection_string self) p in
  new_result env df ("database:" +:+ name self)
    (<["query" := VStr (query self)]>
       (<["params" := VRef (params self)]> ∅)).

(** The text of the f-string: a line feed, sixteen blanks, the SELECT
    line, a line feed, sixteen blanks, the WHERE line, a line feed and
    twelve blanks. *)
Definition incremental_query (base timestamp_column : string) : string :=
  Str.nl +:+ Str.blanks 16 +:+ "SELECT * FROM (" +:+ base +:+ ") AS base"
  +:+ Str.nl +:+ Str.blanks 16 +:+ "WHERE " +:+ timestamp_column +:+ " > :since"
  +:+ Str.nl +:+ Str.blanks 12.

(** The default of the keyword argument [timestamp_column]. *)
Definition default_timestamp_column : string := "updated_at".

(** The override of [extract_incremental].  A [datetime] is always truthy,
    so [if since] tests for [None]. *)
Definition extract_incremental (self : t) (since : option datetime)
    (timestamp_column : string) : M ExtractionResult :=
  let* qp :=
    match since with
    | Some T =>
        let* d := load (params self) in
        let* p := alloc (<["since" := VDatetime T]> d) in
        ret (incremental_query (query self) timestamp_column, p)
    | None => ret (query self, params self)
    end in
  let* p := load (snd qp) in
  let* df := pd_read_sql_ env (fst qp) (connection_string self) p in
  new_result env df ("database:" +:+ name self)
    (<["incremental" := VBool true]>
       (<["since" := match since with
                     | Some T => VStr (isoformat env T)
                     | None => VNone
                     end]> ∅)).

End Methods.

#[export] Instance extractor : BaseExtractor.t t := {| BaseExtractor.extract := extract |}.

End DatabaseExtractor.

(** ** APIExtractor *)

Module APIExtractor.

Record t : Type := mk {
  name : string;
  base_url : string;
  endpoint : string;
  headers : loc;
  params : loc;
  pagination_key : option string
}.

Definition init (name base_url endpoint : string) (headers params : option loc)
    (pagination_key : option string) : M t :=
  let* h := or_empty headers in
  let* p := or_empty params in
  ret (mk name (Str.rstrip "/" base_url) (Str.lstrip "/" endpoint) h p pagination_key).

Section Methods.

Variable env : Env.

(** [self.pagination_key and data.get(self.pagination_key)], as a truth
    value. *)
Definition has_cursor (self : t) (d : list (string * value)) : bool :=
  match pagination_key self with
  | Some k => Str.truthy k && Py.truthy (Py.dict_get d k VNone)
  | None => false
  end.

(** [data[self.pagination_key]] *)
Definition cursor_of (self : t) (d : list (string * value)) : M value :=
  match pagination_key self with
  | Some k =>
      match Py.dict_lookup d k with
      | Some v => ret v
      | None => raise (KeyError k)
      end
  | None => raise (KeyError "None")
  end.

(** The [while True] loop, with the budget [fuel] of iterations;
    [params] is the per-call copy and [all_data] the accumulator. *)
Fixpoint fetch_pages (fuel : nat) (self : t) (url : string) (params : loc)
    (all_data : list value) : M (list value) :=
  match fuel with
  | O => out_of_fuel
  | S fuel' =>
      let* h := load (headers self) in
      let* p := load params in
      let* response := client_get_ env url h p in
      let* _ := raise_for_status response in
      let* data := json response in
      match data with
      | VList l => ret (all_data ++ l)%list
      | VDict d =>
          let items :=
            Py.dict_get d "data"
              (Py.dict_get d "items" (Py.dict_get d "results" (VList []))) in
          match Py.iterate items with
          | None => raise (TypeError "object is not iterable")
          | Some page =>
              if has_cursor self d then
                let* c := cursor_of self d in
                let* _ := setitem params "cursor" c in
                fetch_pages fuel' self url params (all_data ++ page)%list
              else ret (all_data ++ page)%list
          end
      | _ => fetch_pages fuel' self url params all_data
      end
  end.

Definition extract (fuel : nat) (self : t) : M ExtractionResult :=
  let url := base_url self +:+ "/" +:+ endpoint self in
  let* _ := logger_info (name self) "Extracting from API" [("url", VStr url)] in
  let* p := load (params self) in
  let* params := alloc p in
  let* all_data := fetch_pages fuel self url params [] in
  let* df := lift_answer (pd_DataFrame env all_data) in
  new_result env df ("api:" +:+ name self)
    (<["url" := VStr url]> ∅).

End Methods.

(** One instance per loop budget. *)
Definition extractor (fuel : nat) : BaseExtractor.t t :=
  {| BaseExtractor.extract := fun env => extract env fuel |}.

(** No override: the inherited method. *)
Definition extract_incremental (env : Env) (fuel : nat) (self : t)
    (since : option datetime) : M ExtractionResult :=
  @BaseExtractor.extract_incremental t (extractor fuel) env self since.

End APIExtractor.

(** ** FileExtractor *)

Module FileExtractor.

Definition SUPPORTED_FORMATS : list string := ["csv"; "json"; "parquet"; "excel"].

Record t : Type := mk {
  name : string;
  file_path : string;
  file_format : string;
  read_options : gmap string value
}.

Definition _detect_format (path : string) : string :=
  let ext := Str.lower (Str.last_part (Str.rsplit1 "." path)) in
  if Str.mem ext ["xlsx"; "xls"] then "excel" else ext.

(** [file_format or self._detect_format(file_path)]: an absent or empty
    [file_format] is falsy. *)
Definition init (name file_path : string) (file_format : option string)
    (read_options : gmap string value) : t :=
  mk name file_path
    (match file_format with
     | Some f => if Str.truthy f then f else _detect_format file_path
     | None => _detect_format file_path
     end)
    read_options.

Section Methods.

Variable env : Env.

Definition extract (self : t) : M ExtractionResult :=
  let* _ := logger_info (name self) "Extracting from file"
              [("path", VStr (file_path self))] in
  let* df :=
    if String.eqb (file_format self) "csv" then
      pd_read_csv_ env (file_path self) (read_options self)
    else if String.eqb (file_format self) "json" then
      pd_read_json_ env (file_path self) (read_options self)
    else if String.eqb (file_format self) "parquet" then
      pd_read_parquet_ env (file_path self) (read_options self)
    else if String.eqb (file_format self) "excel" then
      pd_read_excel_ env (file_path self) (read_options self)
    else raise (ValueError ("Unsupported format: " +:+ file_format self)) in
  new_result env df ("file:" +:+ file_path self)
    (<["format" := VStr (file_format self)]>
       (<["path" := VStr (file_path self)]> ∅)).

End Methods.

#[export] Instance extractor : BaseExtractor.t t := {| BaseExtractor.extract := extract |}.

(** No override: the inherited method. *)
Definition extract_incremental (env : Env) (self : t)
    (since : option datetime) : M ExtractionResult :=
  BaseExtractor.extract_incremental env self since.

End FileExtractor.

(** * Definitions used in the statements *)

(** [f] applied to the value an outcome carries. *)
Definition outcome_map {A B} (f : A -> B) (o : outcome A) : outcome B :=
  match o with
  | Return a => Return (f a)
  | Raise e => Raise e
  | OutOfFuel => OutOfFuel
  end.

(** The world after the one log record [extract] writes first. *)
Definition file_logged (self : FileExtractor.t) (w : World) : World :=
  mkWorld (heap w) (calls w)
    (logs w ++ [mkLog (FileExtractor.name self) "Extracting from file"
                  [("path", VStr (FileExtractor.file_path self))]])%list.

(** The names a path without a dot can spell and still be read. *)
Definition dotless_readable : list string :=
  ["csv"; "json"; "parquet"; "excel"; "xlsx"; "xls"].

(** A line feed followed by [n] blanks. *)
Definition layout (n : nat) : string := Str.nl +:+ Str.blanks n.

(** The record list of a mapping page: the first present of [data],
    [items], [results], else the empty list. *)
Definition items_of (d : list (string * value)) : value :=
  Py.dict_get d "data" (Py.dict_get d "items" (Py.dict_get d "results" (VList []))).

(** The world after one request from [w] with the parameters at [p]. *)
Definition requested (self : APIExtractor.t) (url : string) (p : loc)
    (w : World) : World :=
  mkWorld (heap w)
    (calls w ++ [client_get url (deref w (APIExtractor.headers self)) (deref w p)])%list
    (logs w).

(** The answer of the client to the request issued from [w], once the
    status check and the JSON decoding are through. *)
Definition page_at (env : Env) (self : APIExtractor.t) (url : string) (p : loc)
    (w : World) : exn + value :=
  match http_get env (calls w) url (deref w (APIExtractor.headers self)) (deref w p) with
  | inl e => inl e
  | inr resp =>
      match status_error resp with
      | Some e => inl e
      | None => body resp
      end
  end.

Definition url_of (self : APIExtractor.t) : string :=
  APIExtractor.base_url self +:+ "/" +:+ APIExtractor.endpoint self.

(** The world in which the loop starts: the log record is written and the
    copy of [self.params] is allocated. *)
Definition prepared (self : APIExtractor.t) (w : World) : World :=
  mkWorld (<[fresh (dom (heap w)) := deref w (APIExtractor.params self)]> (heap w))
    (calls w)
    (logs w ++ [mkLog (APIExtractor.name self) "Extracting from API"
                  [("url", VStr (url_of self))]])%list.

(** ** Test doubles *)

(** A stand-in for [pd.DataFrame] on lists that are not lists of
    mappings: a list of scalars becomes a one-column frame, any other
    shape is refused. *)
Definition plain_frame (records : list value) : exn + DataFrame :=
  if forallb is_scalar records then inr records
  else inl (Failure "ValueError").

Definition is_get (c : call) : bool :=
  match c with
  | client_get _ _ _ => true
  | _ => false
  end.

(** A mocked environment: the HTTP client answers its n-th request with
    the n-th of [pages]; the SQL engine and the four decoders return
    [frame]; the clock counts the calls made. *)
Definition mock (pages : list Response) (frame : DataFrame) : Env :=
  {| read_sql := fun _ _ _ _ => inr frame;
     http_get := fun h _ _ _ =>
       match nth_error pages (length (filter is_get h)) with
       | Some r => inr r
       | None => inl (Failure "StopIteration")
       end;
     read_csv := fun _ _ _ => inr frame;
     read_json := fun _ _ _ => inr frame;
     read_parquet := fun _ _ _ => inr frame;
     read_excel := fun _ _ _ => inr frame;
     utcnow := fun h => Z.of_nat (length h);
     isoformat := fun _ => "1970-01-01T00:00:00";
     frame_of := plain_frame |}.

(** A response with a success status and the JSON body [v]. *)
Definition ok_json (v : value) : Response := mkResponse None (inr v).

Definition empty_world : World := mkWorld ∅ [] [].

(** A concrete database extractor and a world holding its (empty)
    parameter dictionary. *)
Definition orders : DatabaseExtractor.t :=
  DatabaseExtractor.mk "orders" "sqlite:///shop.db" "SELECT * FROM orders" 1%positive.

Definition shop : World := mkWorld {[ 1%positive := ∅ ]} [] [].

(** A concrete API extractor with a pagination key, its twin without one,
    and a world holding their header and parameter dictionaries. *)
Definition users : APIExtractor.t :=
  APIExtractor.mk "users" "https://api.example.com" "v1/users"
    1%positive 2%positive (Some "next").

Definition users_unpaged : APIExtractor.t :=
  APIExtractor.mk "users" "https://api.example.com" "v1/users"
    1%positive 2%positive None.

Definition site : World :=
  mkWorld (<[1%positive := ∅]> (<[2%positive := <["limit" := VInt 50]> ∅]> ∅)) [] [].

(** The two pages of the pagination scenario. *)
Definition page_one (r1 r2 : value) : list (string * value) :=
  [("data", VList [r1; r2]); ("next", VStr "abc")].

Definition page_two (r3 : value) : list (string * value) :=
  [("data", VList [r3]); ("next", VNone)].

(** ** Definitions for the further properties *)

(** An environment in which every collaborator raises [e]. *)
Definition failing (e : exn) : Env :=
  {| read_sql := fun _ _ _ _ => inl e;
     http_get := fun _ _ _ _ => inl e;
     read_csv := fun _ _ _ => inl e;
     read_json := fun _ _ _ => inl e;
     read_parquet := fun _ _ _ => inl e;
     read_excel := fun _ _ _ => inl e;
     utcnow := fun _ => 0;
     isoformat := fun _ => "";
     frame_of := fun _ => inl e |}.

(** An environment whose HTTP client gives the same response to every
    request. *)
Definition constant (resp : Response) : Env :=
  {| read_sql := fun _ _ _ _ => inr [];
     http_get := fun _ _ _ _ => inr resp;
     read_csv := fun _ _ _ => inr [];
     read_json := fun _ _ _ => inr [];
     read_parquet := fun _ _ _ => inr [];
     read_excel := fun _ _ _ => inr [];
     utcnow := fun _ => 0;
     isoformat := fun _ => "";
     frame_of := plain_frame |}.

(** [n] copies of the character [c]. *)
Fixpoint copies (c : ascii) (n : nat) : string :=
  match n with
  | O => EmptyString
  | S k => String c (copies c k)
  end.

(** Whether [s] begins, respectively ends, with the character [c]. *)
Definition starts_with (c : ascii) (s : string) : bool :=
  match s with
  | EmptyString => false
  | String d _ => Ascii.eqb d c
  end.

Fixpoint ends_with (c : ascii) (s : string) : bool :=
  match s with
  | EmptyString => false
  | String d EmptyString => Ascii.eqb d c
  | String _ s' => ends_with c s'
  end.

(** The log record [DatabaseExtractor.extract] writes. *)
Definition db_log (self : DatabaseExtractor.t) : log_record :=
  mkLog (DatabaseExtractor.name self) "Extracting data"
    [("query", VStr (Str.prefix 100 (DatabaseExtractor.query self)))].

(** The response carrying the mapping page [d]. *)
Definition page_response (d : list (string * value)) : Response :=
  ok_json (VDict d).

(** The value a mapping page holds under the configured pagination key;
    [None] when there is no key or the page lacks it. *)
Definition cursor_value (self : APIExtractor.t) (d : list (string * value)) : value :=
  match APIExtractor.pagination_key self with
  | Some k => Py.dict_get d k VNone
  | None => VNone
  end.

(** The records a mapping page contributes. *)
Definition records_of (d : list (string * value)) : list value :=
  default [] (Py.iterate (items_of d)).

Definition iterable (v : value) : bool :=
  match Py.iterate v with
  | Some _ => true
  | None => false
  end.

(** A mapping page after which the loop goes on: its records can be
    iterated and it has a truthy value under the pagination key. *)
Definition more_page (self : APIExtractor.t) (d : list (string * value)) : bool :=
  APIExtractor.has_cursor self d && iterable (items_of d).

(** The requests the loop issues while it goes through the pages [ds],
    starting with the parameters [pr]: each page sets the [cursor] of the
    next request. *)
Fixpoint page_requests (self : APIExtractor.t) (url : string)
    (h pr : gmap string value) (ds : list (list (string * value))) : list call :=
  match ds with
  | [] => []
  | d :: ds' =>
      client_get url h pr
      :: page_requests self url h (<["cursor" := cursor_value self d]> pr) ds'
  end.

(** The world after the loop went through the pages [ds]. *)
Fixpoint after_pages (self : APIExtractor.t) (url : string) (p : loc)
    (ds : list (list (string * value))) (w : World) : World :=
  match ds with
  | [] => w
  | d :: ds' =>
      after_pages self url p ds'
        (mkWorld (<[p := <["cursor" := cursor_value self d]> (deref w p)]> (heap w))
           (calls (requested self url p w)) (logs w))
  end.

(** The number of HTTP requests in a history. *)
Definition gets (h : list call) : nat := length (filter is_get h).

(** A response that makes the turn fail with [e], at the status check or
    at the decoding of the body. *)
Definition fails_with (resp : Response) (e : exn) : Prop :=
  match status_error resp with
  | Some e' => e' = e
  | None => body resp = inl e
  end.

(** [v] is what a mapping page [d] holds under the first present of
    [data], [items], [results], or the empty list when none is present. *)
Definition first_present (d : list (string * value)) (v : value) : Prop :=
  Py.dict_lookup d "data" = Some v
  \/ (Py.dict_lookup d "data" = None /\ Py.dict_lookup d "items" = Some v)
  \/ (Py.dict_lookup d "data" = None /\ Py.dict_lookup d "items" = None
      /\ Py.dict_lookup d "results" = Some v)
  \/ (Py.dict_lookup d "data" = None /\ Py.dict_lookup d "items" = None
      /\ Py.dict_lookup d "results" = None /\ v = VList []).

(** * Properties *)

(** ** ExtractionResult *)

(** C8. Every [ExtractionResult] built by its constructor has
    [record_count] equal to the number of rows of [data], whatever
    [record_count] was passed to the constructor. *)
Theorem record_count_is_len (df : DataFrame) (src : string) (at_ : datetime)
    (meta : gmap string value) (supplied : Z) :
  record_count (ExtractionResult_init df src at_ meta supplied)
  = Z.of_nat (length (data (ExtractionResult_init df src at_ meta supplied)))
  /\ data (ExtractionResult_init df src at_ meta supplied) = df.
Proof. split; reflexivity. Qed.

(** Every result the extractors build goes through the constructor. *)
Lemma new_result_counted env df src meta w :
  exists r, new_result env df src meta w = (Return r, w)
            /\ data r = df /\ source r = src /\ metadata r = meta
            /\ record_count r = Z.of_nat (length df).
Proof. eexists; repeat split. Qed.

(** ** Splitting a path at its last dot *)

Section RightSplit.

Variable sep : ascii.

Lemma rcut_absent (e : string) :
  Str.has_char sep e = false -> Str.rcut sep e = None.
Proof.
  induction e as [|c e IH]; simpl; [reflexivity|].
  intros H. apply orb_false_iff in H as [Hc He].
  rewrite (IH He), Hc. reflexivity.
Qed.

Lemma rcut_last (stem e : string) :
  Str.has_char sep e = false ->
  Str.rcut sep (stem +:+ String sep e) = Some (stem, e).
Proof.
  intros He. induction stem as [|c stem IH]; simpl.
  - rewrite (rcut_absent e He), Ascii.eqb_refl. reflexivity.
  - rewrite IH. reflexivity.
Qed.

Lemma rsplit1_last (stem e : string) :
  Str.has_char sep e = false ->
  Str.last_part (Str.rsplit1 sep (stem +:+ String sep e)) = e.
Proof. intros He. unfold Str.rsplit1. rewrite (rcut_last stem e He). reflexivity. Qed.

Lemma rsplit1_whole (s : string) :
  Str.has_char sep s = false ->
  Str.last_part (Str.rsplit1 sep s) = s.
Proof. intros Hs. unfold Str.rsplit1. rewrite (rcut_absent s Hs). reflexivity. Qed.

End RightSplit.

Lemma mem_excel_ext (x : string) :
  Str.mem x ["xlsx"; "xls"] = true <-> x = "xlsx" \/ x = "xls".
Proof.
  unfold Str.mem; simpl. rewrite !orb_true_iff, !String.eqb_eq.
  split; [intros [H|[H|H]]|intros [H|H]]; auto; discriminate.
Qed.

(** ** FileExtractor *)

(** C5. Without an explicit format, the format is resolved from the text
    after the last dot of the path, compared in lower case: [xlsx] and
    [xls] in any letter case give [excel], every other extension gives the
    extension itself in lower case. *)
Theorem detect_format_by_extension (name stem e : string)
    (options : gmap string value) :
  Str.has_char "." e = false ->
  let self := FileExtractor.init name (stem +:+ "." +:+ e) None options in
  (Str.lower e = "xlsx" \/ Str.lower e = "xls" ->
   FileExtractor.file_format self = "excel")
  /\ (Str.lower e <> "xlsx" -> Str.lower e <> "xls" ->
      FileExtractor.file_format self = Str.lower e).
Proof.
  intros He self. subst self. simpl.
  unfold FileExtractor._detect_format.
  change (stem +:+ "." +:+ e) with (stem +:+ String "." e).
  rewrite (rsplit1_last "." stem e He).
  split.
  - intros Hx. apply mem_excel_ext in Hx. rewrite Hx. reflexivity.
  - intros H1 H2.
    destruct (Str.mem (Str.lower e) ["xlsx"; "xls"]) eqn:Hm; [|reflexivity].
    apply mem_excel_ext in Hm as [Hm|Hm]; contradiction.
Qed.

Lemma detect_format_by_extension_witness :
  FileExtractor.file_format
    (FileExtractor.init "sales" "Report.2024.XlsX" None ∅) = "excel"
  /\ FileExtractor.file_format
       (FileExtractor.init "sales" "dump.TSV" None ∅) = "tsv".
Proof.
  split.
  - apply (detect_format_by_extension "sales" "Report.2024" "XlsX" ∅);
      [reflexivity | left; reflexivity].
  - apply (detect_format_by_extension "sales" "dump" "TSV" ∅);
      [reflexivity | discriminate | discriminate].
Defined.

Lemma mem_supported_false (f : string) :
  Str.mem f FileExtractor.SUPPORTED_FORMATS = false ->
  String.eqb f "csv" = false /\ String.eqb f "json" = false
  /\ String.eqb f "parquet" = false /\ String.eqb f "excel" = false.
Proof.
  unfold Str.mem, FileExtractor.SUPPORTED_FORMATS; simpl.
  rewrite !orb_false_iff. tauto.
Qed.

Lemma extract_unsupported env (self : FileExtractor.t) (w : World) :
  Str.mem (FileExtractor.file_format self) FileExtractor.SUPPORTED_FORMATS = false ->
  FileExtractor.extract env self w
  = (Raise (ValueError ("Unsupported format: " +:+ FileExtractor.file_format self)),
     file_logged self w).
Proof.
  intros H. apply mem_supported_false in H as (H1 & H2 & H3 & H4).
  unfold FileExtractor.extract, bind, logger_info. simpl.
  rewrite H1, H2, H3, H4. reflexivity.
Qed.

(** Running [extract] when the format is one of the four literals: the
    comparisons compute, and the answer of the decoder is the only
    unknown left. *)
Ltac run_decoder :=
  match goal with
  | self : FileExtractor.t |- _ =>
      destruct self as [? ? fmt ?]; simpl in *; subst fmt;
      unfold FileExtractor.extract, bind; cbn;
      match goal with
      | |- context [lift_answer ?a] => destruct a
      end; reflexivity
  end.

Lemma extract_supported env (self : FileExtractor.t) (w : World) :
  let path := FileExtractor.file_path self in
  let options := FileExtractor.read_options self in
  let after := calls (snd (FileExtractor.extract env self w)) in
  (FileExtractor.file_format self = "csv" ->
   after = (calls w ++ [pd_read_csv path options])%list)
  /\ (FileExtractor.file_format self = "json" ->
      after = (calls w ++ [pd_read_json path options])%list)
  /\ (FileExtractor.file_format self = "parquet" ->
      after = (calls w ++ [pd_read_parquet path options])%list)
  /\ (FileExtractor.file_format self = "excel" ->
      after = (calls w ++ [pd_read_excel path options])%list).
Proof.
  intros path options after. subst path options after.
  repeat split; intros E; run_decoder.
Qed.

(** C6. [FileExtractor.extract] on a format outside [csv], [json],
    [parquet], [excel] raises [ValueError] with the unsupported-format
    message and records no collaborator call; on each of the four formats
    it records exactly the call of the decoder of that format. *)
Theorem extract_dispatches_on_format env (self : FileExtractor.t) (w : World) :
  let path := FileExtractor.file_path self in
  let options := FileExtractor.read_options self in
  let run := FileExtractor.extract env self w in
  (Str.mem (FileExtractor.file_format self) FileExtractor.SUPPORTED_FORMATS = false ->
   fst run = Raise (ValueError ("Unsupported format: " +:+ FileExtractor.file_format self))
   /\ calls (snd run) = calls w)
  /\ (FileExtractor.file_format self = "csv" ->
      calls (snd run) = (calls w ++ [pd_read_csv path options])%list)
  /\ (FileExtractor.file_format self = "json" ->
      calls (snd run) = (calls w ++ [pd_read_json path options])%list)
  /\ (FileExtractor.file_format self = "parquet" ->
      calls (snd run) = (calls w ++ [pd_read_parquet path options])%list)
  /\ (FileExtractor.file_format self = "excel" ->
      calls (snd run) = (calls w ++ [pd_read_excel path options])%list).
Proof.
  intros path options run. subst path options run. split.
  - intros H. rewrite (extract_unsupported env self w H). split; reflexivity.
  - apply extract_supported.
Qed.

Lemma extract_dispatches_on_format_witness :
  let notes := FileExtractor.init "notes" "notes.txt" None ∅ in
  let table := FileExtractor.init "table" "table.CSV" None ∅ in
  (fst (FileExtractor.extract (mock [] []) notes empty_world)
   = Raise (ValueError "Unsupported format: txt")
   /\ calls (snd (FileExtractor.extract (mock [] []) notes empty_world)) = [])
  /\ calls (snd (FileExtractor.extract (mock [] []) table empty_world))
     = [pd_read_csv "table.CSV" ∅].
Proof.
  intros notes table. split.
  - apply (extract_dispatches_on_format (mock [] []) notes empty_world).
    reflexivity.
  - apply (extract_dispatches_on_format (mock [] []) table empty_world).
    reflexivity.
Defined.

(** C10, as stated, fails on the path [xls]: it has no dot, its resolved
    format is [excel] rather than the path itself, and [extract] reads it
    with the Excel decoder although [xls] is not a supported format
    name. *)
Lemma dotless_path_counterexample :
  let self := FileExtractor.init "book" "xls" None ∅ in
  Str.has_char "." "xls" = false
  /\ FileExtractor.file_format self <> Str.lower "xls"
  /\ Str.mem (Str.lower "xls") FileExtractor.SUPPORTED_FORMATS = false
  /\ (exists r, fst (FileExtractor.extract (mock [] []) self empty_world) = Return r)
  /\ calls (snd (FileExtractor.extract (mock [] []) self empty_world))
     = [pd_read_excel "xls" ∅].
Proof.
  cbv zeta. repeat split; try reflexivity.
  - discriminate.
  - eexists. reflexivity.
Qed.

Lemma mem_dotless_readable (x : string) :
  Str.mem x dotless_readable
  = Str.mem (if Str.mem x ["xlsx"; "xls"] then "excel" else x)
      FileExtractor.SUPPORTED_FORMATS.
Proof.
  unfold Str.mem, dotless_readable, FileExtractor.SUPPORTED_FORMATS; simpl.
  destruct (String.eqb_spec x "xlsx") as [->|]; [reflexivity|].
  destruct (String.eqb_spec x "xls") as [->|]; [reflexivity|].
  simpl. rewrite !orb_false_r. reflexivity.
Qed.

(** C10, amended. On a path without a dot and without an explicit format,
    the resolved format is the whole path in lower case, except that a path
    spelling [xlsx] or [xls] resolves to [excel]; [extract] then raises the
    unsupported-format error, with no collaborator call, unless the path in
    lower case is one of [csv], [json], [parquet], [excel], [xlsx], [xls],
    in which case exactly one decoder is called. *)
Theorem dotless_path_format env (name path : string)
    (options : gmap string value) (w : World) :
  Str.has_char "." path = false ->
  let self := FileExtractor.init name path None options in
  let run := FileExtractor.extract env self w in
  FileExtractor.file_format self
  = (if Str.mem (Str.lower path) ["xlsx"; "xls"] then "excel" else Str.lower path)
  /\ (Str.mem (Str.lower path) dotless_readable = false ->
      FileExtractor.file_format self = Str.lower path
      /\ fst run = Raise (ValueError ("Unsupported format: " +:+ Str.lower path))
      /\ calls (snd run) = calls w)
  /\ (Str.mem (Str.lower path) dotless_readable = true ->
      exists c, calls (snd run) = (calls w ++ [c])%list).
Proof.
  intros Hp self run.
  assert (Hf : FileExtractor.file_format self
               = if Str.mem (Str.lower path) ["xlsx"; "xls"]
                 then "excel" else Str.lower path).
  { subst self. simpl. unfold FileExtractor._detect_format.
    rewrite (rsplit1_whole "." path Hp). reflexivity. }
  split; [exact Hf|]. split.
  - intros Hm. rewrite mem_dotless_readable, <- Hf in Hm.
    assert (Hl : FileExtractor.file_format self = Str.lower path).
    { rewrite Hf. destruct (Str.mem (Str.lower path) ["xlsx"; "xls"]) eqn:Hx;
        [|reflexivity].
      rewrite Hf in Hm. discriminate. }
    split; [exact Hl|]. subst run.
    rewrite (extract_unsupported env self w Hm), Hl. split; reflexivity.
  - intros Hm. rewrite mem_dotless_readable, <- Hf in Hm.
    destruct (extract_supported env self w) as (Hc & Hj & Hq & Hx).
    unfold Str.mem, FileExtractor.SUPPORTED_FORMATS in Hm; simpl in Hm.
    rewrite !orb_true_iff, !String.eqb_eq in Hm.
    destruct Hm as [E|[E|[E|[E|E]]]]; try discriminate; eexists; eauto.
Qed.

Lemma dotless_path_format_witness :
  let run := FileExtractor.extract (mock [] [])
               (FileExtractor.init "raw" "README" None ∅) empty_world in
  FileExtractor.file_format (FileExtractor.init "raw" "README" None ∅) = "readme"
  /\ fst run = Raise (ValueError "Unsupported format: readme")
  /\ calls (snd run) = [].
Proof.
  destruct (dotless_path_format (mock [] []) "raw" "README" ∅ empty_world)
    as (_ & H & _); [reflexivity|].
  apply H. reflexivity.
Defined.

(** ** Inherited [extract_incremental] *)

(** C4. [FileExtractor] and [APIExtractor] do not override
    [extract_incremental]: for every [since], absent or not, the call is
    the same computation as [extract] on the same extractor, in the same
    world and with the same collaborators; and so it is for every subtype
    that keeps the default. *)
Theorem inherited_incremental_is_full env (since : option datetime) :
  (forall (self : FileExtractor.t) (w : World),
     FileExtractor.extract_incremental env self since w
     = FileExtractor.extract env self w)
  /\ (forall (fuel : nat) (self : APIExtractor.t) (w : World),
        APIExtractor.extract_incremental env fuel self since w
        = APIExtractor.extract env fuel self w)
  /\ (forall (T : Type) (E : BaseExtractor.t T) (self : T) (w : World),
        BaseExtractor.extract_incremental env self since w
        = BaseExtractor.extract env self w).
Proof. repeat split. Qed.

(** ** Running the primitive steps *)

Lemma deref_insert (h : gmap loc (gmap string value)) (c : list call)
    (lg : list log_record) (l : loc) (d : gmap string value) :
  deref (mkWorld (<[l := d]> h) c lg) l = d.
Proof. unfold deref; simpl. rewrite lookup_insert_eq. reflexivity. Qed.

Lemma fresh_unallocated (w : World) : heap w !! fresh (dom (heap w)) = None.
Proof. apply not_elem_of_dom, is_fresh. Qed.

(** ** DatabaseExtractor *)

Section Database.

Variable env : Env.
Variable self : DatabaseExtractor.t.

Let q := DatabaseExtractor.query self.
Let con := DatabaseExtractor.connection_string self.

(** [extract] calls the engine once, with the base query and the content
    of [self.params]. *)
Lemma db_extract_run (w : World) :
  let p := deref w (DatabaseExtractor.params self) in
  let w1 := mkWorld (heap w) (calls w ++ [pd_read_sql q con p])%list
              (logs w ++ [mkLog (DatabaseExtractor.name self) "Extracting data"
                            [("query", VStr (Str.prefix 100 q))]])%list in
  DatabaseExtractor.extract env self w
  = match read_sql env (calls w) q con p with
    | inl e => (Raise e, w1)
    | inr df =>
        (Return (ExtractionResult_init df
                   ("database:" +:+ DatabaseExtractor.name self)
                   (utcnow env (calls w1))
                   (<["query" := VStr q]>
                      (<["params" := VRef (DatabaseExtractor.params self)]> ∅)) 0),
         w1)
    end.
Proof.
  intros p w1. subst p w1 q con.
  unfold DatabaseExtractor.extract, bind, logger_info, load, pd_read_sql_,
    history, record, new_result, bind; simpl.
  destruct (read_sql env _ _ _ _); reflexivity.
Qed.

(** Without [since], [extract_incremental] makes the same call. *)
Lemma db_incremental_none_run (col : string) (w : World) :
  let p := deref w (DatabaseExtractor.params self) in
  let w1 := mkWorld (heap w) (calls w ++ [pd_read_sql q con p])%list (logs w) in
  DatabaseExtractor.extract_incremental env self None col w
  = match read_sql env (calls w) q con p with
    | inl e => (Raise e, w1)
    | inr df =>
        (Return (ExtractionResult_init df
                   ("database:" +:+ DatabaseExtractor.name self)
                   (utcnow env (calls w1))
                   (<["incremental" := VBool true]> (<["since" := VNone]> ∅)) 0),
         w1)
    end.
Proof.
  intros p w1. subst p w1 q con.
  unfold DatabaseExtractor.extract_incremental, bind, load, pd_read_sql_,
    history, record, new_result, bind, ret; simpl.
  destruct (read_sql env _ _ _ _); reflexivity.
Qed.

(** With [since], the engine receives the wrapped query and a new
    dictionary of bindings. *)
Lemma db_incremental_some_run (T : datetime) (col : string) (w : World) :
  let sql := DatabaseExtractor.incremental_query q col in
  let p := <["since" := VDatetime T]> (deref w (DatabaseExtractor.params self)) in
  let w1 := mkWorld (<[fresh (dom (heap w)) := p]> (heap w))
              (calls w ++ [pd_read_sql sql con p])%list (logs w) in
  DatabaseExtractor.extract_incremental env self (Some T) col w
  = match read_sql env (calls w) sql con p with
    | inl e => (Raise e, w1)
    | inr df =>
        (Return (ExtractionResult_init df
                   ("database:" +:+ DatabaseExtractor.name self)
                   (utcnow env (calls w1))
                   (<["incremental" := VBool true]>
                      (<["since" := VStr (isoformat env T)]> ∅)) 0),
         w1)
    end.
Proof.
  intros sql p w1. subst sql p w1 q con.
  unfold DatabaseExtractor.extract_incremental, bind, load, alloc, pd_read_sql_,
    history, record, new_result, bind, ret; simpl.
  rewrite !deref_insert.
  destruct (read_sql env _ _ _ _); reflexivity.
Qed.

End Database.

(** C1, as stated, fails: without [since] the metadata still carries
    [incremental = True]; nothing in it marks the call as
    non-incremental. *)
Lemma incremental_flag_counterexample :
  exists r,
    fst (DatabaseExtractor.extract_incremental (mock [] [VInt 7]) orders None
           DatabaseExtractor.default_timestamp_column shop) = Return r
    /\ metadata r !! "incremental" = Some (VBool true)
    /\ metadata r !! "incremental" <> Some (VBool false).
Proof.
  eexists. split; [reflexivity|]. split; [reflexivity|discriminate].
Qed.

(** C1, amended. Without [since], [extract_incremental] calls the query
    engine exactly as [extract] does, with the unmodified base query and
    the content of [self.params], and leaves the store untouched; both
    end the same way, and on success the two results agree on [data],
    [source], [extracted_at] and [record_count].  The metadata of the
    incremental result is [incremental = True] and [since = None]. *)
Theorem incremental_without_since env (self : DatabaseExtractor.t)
    (col : string) (w : World) :
  let inc := DatabaseExtractor.extract_incremental env self None col w in
  let full := DatabaseExtractor.extract env self w in
  calls (snd inc)
  = (calls w ++ [pd_read_sql (DatabaseExtractor.query self)
                   (DatabaseExtractor.connection_string self)
                   (deref w (DatabaseExtractor.params self))])%list
  /\ calls (snd full) = calls (snd inc)
  /\ heap (snd inc) = heap w
  /\ heap (snd full) = heap w
  /\ outcome_map data (fst inc) = outcome_map data (fst full)
  /\ outcome_map source (fst inc) = outcome_map source (fst full)
  /\ outcome_map extracted_at (fst inc) = outcome_map extracted_at (fst full)
  /\ outcome_map record_count (fst inc) = outcome_map record_count (fst full)
  /\ outcome_map metadata (fst inc)
     = outcome_map
         (fun _ => <["incremental" := VBool true]> (<["since" := VNone]> ∅))
         (fst full).
Proof.
  intros inc full. subst inc full.
  rewrite db_incremental_none_run, db_extract_run.
  destruct (read_sql env _ _ _ _); repeat split.
Qed.

(** C2. With [since = T], [extract_incremental] calls the query engine
    once, with the base query wrapped as
    [SELECT * FROM (<base>) AS base WHERE <column> > :since] (laid out on
    two indented lines) and with a dictionary of bindings that is the
    original one extended with [since = T]. *)
Theorem incremental_with_since env (self : DatabaseExtractor.t)
    (T : datetime) (col : string) (w : World) :
  let original := deref w (DatabaseExtractor.params self) in
  let sql := DatabaseExtractor.incremental_query (DatabaseExtractor.query self) col in
  let run := DatabaseExtractor.extract_incremental env self (Some T) col w in
  exists bindings : gmap string value,
    calls (snd run)
    = (calls w ++ [pd_read_sql sql (DatabaseExtractor.connection_string self)
                     bindings])%list
    /\ sql = layout 16 +:+ "SELECT * FROM (" +:+ DatabaseExtractor.query self
             +:+ ") AS base" +:+ layout 16 +:+ "WHERE " +:+ col +:+ " > :since"
             +:+ layout 12
    /\ Str.all_space (layout 16) = true
    /\ Str.all_space (layout 12) = true
    /\ bindings = <["since" := VDatetime T]> original
    /\ bindings !! "since" = Some (VDatetime T)
    /\ (forall k, k <> "since" -> bindings !! k = original !! k).
Proof.
  intros original sql run. subst original sql run.
  exists (<["since" := VDatetime T]> (deref w (DatabaseExtractor.params self))).
  rewrite db_incremental_some_run.
  split; [destruct (read_sql env _ _ _ _); reflexivity|].
  split; [reflexivity|].
  split; [reflexivity|]. split; [reflexivity|]. split; [reflexivity|].
  split; [apply lookup_insert_eq|].
  intros k Hk. apply lookup_insert_ne. congruence.
Qed.

(** ** APIExtractor: one turn of the loop *)

Section Pagination.

Variable env : Env.
Variable self : APIExtractor.t.

Ltac open_turn :=
  cbn [APIExtractor.fetch_pages];
  unfold load, client_get_, history, record, raise_for_status, json,
    lift_answer, page_at, requested;
  unfold bind, ret, raise; simpl.

Lemma turn_fails fuel url p acc w e :
  page_at env self url p w = inl e ->
  APIExtractor.fetch_pages env (S fuel) self url p acc w
  = (Raise e, requested self url p w).
Proof.
  open_turn.
  destruct (http_get env _ _ _ _) as [e'|resp]; simpl; [congruence|].
  destruct (status_error resp); simpl; [congruence|].
  destruct (body resp); simpl; congruence.
Qed.

Lemma turn_decoded fuel url p acc w data :
  page_at env self url p w = inr data ->
  APIExtractor.fetch_pages env (S fuel) self url p acc w
  = match data with
    | VList l => (Return (acc ++ l)%list, requested self url p w)
    | VDict d =>
        match Py.iterate (items_of d) with
        | None => (Raise (TypeError "object is not iterable"), requested self url p w)
        | Some page =>
            if APIExtractor.has_cursor self d then
              bind (APIExtractor.cursor_of self d) (fun c =>
                bind (setitem p "cursor" c) (fun _ =>
                  APIExtractor.fetch_pages env fuel self url p (acc ++ page)%list))
                (requested self url p w)
            else (Return (acc ++ page)%list, requested self url p w)
        end
    | _ => APIExtractor.fetch_pages env fuel self url p acc (requested self url p w)
    end.
Proof.
  open_turn.
  destruct (http_get env _ _ _ _) as [e'|resp]; simpl; [congruence|].
  destruct (status_error resp); simpl; [congruence|].
  destruct (body resp) as [e'|v]; simpl; [congruence|].
  intros [= ->]. destruct data; try reflexivity.
  unfold items_of. destruct (Py.iterate _); [|reflexivity].
  destruct (APIExtractor.has_cursor self d); reflexivity.
Qed.

End Pagination.

Lemma deref_insert_ne (w : World) (c : list call) (lg : list log_record)
    (l l' : loc) (d : gmap string value) :
  l <> l' ->
  deref (mkWorld (<[l := d]> (heap w)) c lg) l' = deref w l'.
Proof. intros H. unfold deref; simpl. rewrite lookup_insert_ne; [reflexivity|exact H]. Qed.

Lemma allocated_not_fresh (w : World) (l : loc) :
  is_Some (heap w !! l) -> fresh (dom (heap w)) <> l.
Proof.
  intros [d Hd] E. pose proof (fresh_unallocated w) as F.
  rewrite E in F. congruence.
Qed.

Section Extraction.

Variable env : Env.
Variable self : APIExtractor.t.

Lemma api_extract_run (fuel : nat) (w : World) :
  APIExtractor.extract env fuel self w
  = match APIExtractor.fetch_pages env fuel self (url_of self)
            (fresh (dom (heap w))) [] (prepared self w) with
    | (Return all_data, w') =>
        match pd_DataFrame env all_data with
        | inr df =>
            (Return (ExtractionResult_init df
                       ("api:" +:+ APIExtractor.name self)
                       (utcnow env (calls w'))
                       (<["url" := VStr (url_of self)]> ∅) 0), w')
        | inl e => (Raise e, w')
        end
    | (Raise e, w') => (Raise e, w')
    | (OutOfFuel, w') => (OutOfFuel, w')
    end.
Proof.
  unfold APIExtractor.extract, prepared, url_of.
  unfold bind at 1. unfold logger_info. unfold bind at 1. unfold load.
  unfold bind at 1. unfold alloc. cbn [heap calls logs].
  unfold bind at 1.
  destruct (APIExtractor.fetch_pages _ _ _ _ _ _ _) as [[all|e|] w']; try reflexivity.
  unfold bind. destruct (pd_DataFrame env all); reflexivity.
Qed.

(** Building the frame comes after the loop and touches nothing: the
    world [extract] leaves is the world the loop leaves. *)
Lemma api_extract_world (fuel : nat) (w : World) :
  snd (APIExtractor.extract env fuel self w)
  = snd (APIExtractor.fetch_pages env fuel self (url_of self)
           (fresh (dom (heap w))) [] (prepared self w)).
Proof.
  rewrite api_extract_run.
  destruct (APIExtractor.fetch_pages _ _ _ _ _ _ _) as [[all|e|] w']; try reflexivity.
  destruct (pd_DataFrame env all); reflexivity.
Qed.

(** An outcome of the loop other than a return is the outcome of
    [extract]. *)
Lemma api_extract_stopped (fuel : nat) (w : World) :
  (forall e,
     fst (APIExtractor.fetch_pages env fuel self (url_of self)
            (fresh (dom (heap w))) [] (prepared self w)) = Raise e ->
     fst (APIExtractor.extract env fuel self w) = Raise e)
  /\ (fst (APIExtractor.fetch_pages env fuel self (url_of self)
             (fresh (dom (heap w))) [] (prepared self w)) = OutOfFuel ->
      fst (APIExtractor.extract env fuel self w) = OutOfFuel).
Proof.
  rewrite api_extract_run.
  destruct (APIExtractor.fetch_pages _ _ _ _ _ _ _) as [[all|e|] w'];
    split; simpl; try discriminate; try (intros ? [= <-]); auto.
Qed.

(** When the loop returns a list of mappings, [extract] returns the frame
    of these records. *)
Lemma api_extract_returned (fuel : nat) (w w' : World) (all_data : list value) :
  APIExtractor.fetch_pages env fuel self (url_of self)
    (fresh (dom (heap w))) [] (prepared self w) = (Return all_data, w') ->
  forallb is_mapping all_data = true ->
  APIExtractor.extract env fuel self w
  = (Return (ExtractionResult_init all_data
               ("api:" +:+ APIExtractor.name self)
               (utcnow env (calls w'))
               (<["url" := VStr (url_of self)]> ∅) 0), w').
Proof.
  intros H Hm. rewrite api_extract_run, H. unfold pd_DataFrame. rewrite Hm.
  reflexivity.
Qed.

Lemma prepared_params (w : World) :
  deref (prepared self w) (fresh (dom (heap w))) = deref w (APIExtractor.params self).
Proof. apply deref_insert. Qed.

Lemma prepared_other (w : World) (l : loc) :
  is_Some (heap w !! l) -> deref (prepared self w) l = deref w l.
Proof.
  intros H. unfold prepared. rewrite deref_insert_ne; [reflexivity|].
  apply allocated_not_fresh, H.
Qed.

(** What the loop does to the world, whatever its budget and however it
    ends: it writes to the store only at [p], it does not log, and it only
    adds to the history of calls. *)
Lemma fetch_pages_frame (fuel : nat) :
  forall url p acc w,
    let w' := snd (APIExtractor.fetch_pages env fuel self url p acc w) in
    (forall l, l <> p -> heap w' !! l = heap w !! l)
    /\ logs w' = logs w
    /\ exists more, calls w' = (calls w ++ more)%list.
Proof.
  induction fuel as [|fuel IH]; intros url p acc w w'; subst w'.
  - simpl. repeat split. exists []. rewrite app_nil_r. reflexivity.
  - assert (Hstop : forall (o : outcome (list value)),
             (forall l, l <> p ->
                heap (snd (o, requested self url p w)) !! l = heap w !! l)
             /\ logs (snd (o, requested self url p w)) = logs w
             /\ exists more,
                  calls (snd (o, requested self url p w)) = (calls w ++ more)%list).
    { intros o. simpl. repeat split. eexists. reflexivity. }
    assert (Hnext : forall acc' w1,
             (forall l, l <> p -> heap w1 !! l = heap w !! l) ->
             logs w1 = logs w ->
             calls w1 = calls (requested self url p w) ->
             let w2 := snd (APIExtractor.fetch_pages env fuel self url p acc' w1) in
             (forall l, l <> p -> heap w2 !! l = heap w !! l)
             /\ logs w2 = logs w
             /\ exists more, calls w2 = (calls w ++ more)%list).
    { intros acc' w1 Hh Hl Hc w2. subst w2.
      destruct (IH url p acc' w1) as (Fh & Fl & more & Fc).
      split; [intros l Hlp; rewrite (Fh l Hlp); apply Hh, Hlp|].
      split; [congruence|].
      rewrite Fc, Hc. simpl. rewrite <- app_assoc. eexists. reflexivity. }
    destruct (page_at env self url p w) as [e|data] eqn:Hp.
    + rewrite (turn_fails env self fuel url p acc w e Hp). apply Hstop.
    + rewrite (turn_decoded env self fuel url p acc w data Hp).
      destruct data; try (apply Hnext; reflexivity); try apply Hstop.
      destruct (Py.iterate (items_of d)); [|apply Hstop].
      destruct (APIExtractor.has_cursor self d); [|apply Hstop].
      unfold bind, APIExtractor.cursor_of.
      destruct (APIExtractor.pagination_key self) as [k|]; [|apply Hstop].
      destruct (Py.dict_lookup d k); [|apply Hstop].
      unfold ret, setitem. apply Hnext; try reflexivity.
      intros x Hx. simpl. apply lookup_insert_ne. congruence.
Qed.

(** With a budget of at least one turn, the first thing the loop does is
    the request with the parameters currently at [p]. *)
Lemma fetch_pages_first_call (fuel : nat) url p acc w :
  exists more,
    calls (snd (APIExtractor.fetch_pages env (S fuel) self url p acc w))
    = (calls w
       ++ client_get url (deref w (APIExtractor.headers self)) (deref w p)
          :: more)%list.
Proof.
  assert (Hstop : forall (o : outcome (list value)),
           exists more,
             calls (snd (o, requested self url p w))
             = (calls w ++ client_get url (deref w (APIExtractor.headers self))
                             (deref w p) :: more)%list).
  { intros o. exists []. reflexivity. }
  assert (Hnext : forall acc' w1,
           calls w1 = calls (requested self url p w) ->
           exists more,
             calls (snd (APIExtractor.fetch_pages env fuel self url p acc' w1))
             = (calls w ++ client_get url (deref w (APIExtractor.headers self))
                             (deref w p) :: more)%list).
  { intros acc' w1 Hc.
    destruct (fetch_pages_frame fuel url p acc' w1) as (_ & _ & more & Fc).
    exists more. rewrite Fc, Hc. simpl. rewrite <- app_assoc. reflexivity. }
  destruct (page_at env self url p w) as [e|data] eqn:Hp.
  - rewrite (turn_fails env self fuel url p acc w e Hp). apply Hstop.
  - rewrite (turn_decoded env self fuel url p acc w data Hp).
    destruct data; try (apply Hnext; reflexivity); try apply Hstop.
    destruct (Py.iterate (items_of d)); [|apply Hstop].
    destruct (APIExtractor.has_cursor self d); [|apply Hstop].
    unfold bind, APIExtractor.cursor_of.
    destruct (APIExtractor.pagination_key self) as [k|]; [|apply Hstop].
    destruct (Py.dict_lookup d k); [|apply Hstop].
    unfold ret, setitem. apply Hnext. reflexivity.
Qed.

End Extraction.

Section PaginationRule.

Variable env : Env.
Variable self : APIExtractor.t.

Lemma page_at_ok url p w resp v :
  http_get env (calls w) url (deref w (APIExtractor.headers self)) (deref w p)
  = inr resp ->
  status_error resp = None ->
  body resp = inr v ->
  page_at env self url p w = inr v.
Proof. intros H1 H2 H3. unfold page_at. rewrite H1, H2. exact H3. Qed.

(** A sequence page ends the loop. *)
Lemma turn_sequence fuel url p acc w l :
  page_at env self url p w = inr (VList l) ->
  APIExtractor.fetch_pages env (S fuel) self url p acc w
  = (Return (acc ++ l)%list, requested self url p w).
Proof. intros H. rewrite (turn_decoded env self fuel url p acc w _ H). reflexivity. Qed.

(** A mapping page with a truthy value under the configured pagination
    key: its records are appended, [cursor] is set in the dictionary at
    [p], and the loop goes on. *)
Lemma turn_more fuel url p acc w d page k c :
  page_at env self url p w = inr (VDict d) ->
  Py.iterate (items_of d) = Some page ->
  APIExtractor.pagination_key self = Some k ->
  Str.truthy k = true ->
  Py.dict_lookup d k = Some c ->
  Py.truthy c = true ->
  APIExtractor.fetch_pages env (S fuel) self url p acc w
  = APIExtractor.fetch_pages env fuel self url p (acc ++ page)%list
      (mkWorld (<[p := <["cursor" := c]> (deref w p)]> (heap w))
         (calls (requested self url p w)) (logs w)).
Proof.
  intros H Hi Hk Hkt Hc Hct.
  rewrite (turn_decoded env self fuel url p acc w _ H), Hi.
  unfold APIExtractor.has_cursor, APIExtractor.cursor_of, Py.dict_get.
  rewrite Hk, Hc, Hkt, Hct. reflexivity.
Qed.

(** A mapping page without such a value ends the loop. *)
Lemma turn_last fuel url p acc w d page :
  page_at env self url p w = inr (VDict d) ->
  Py.iterate (items_of d) = Some page ->
  APIExtractor.has_cursor self d = false ->
  APIExtractor.fetch_pages env (S fuel) self url p acc w
  = (Return (acc ++ page)%list, requested self url p w).
Proof.
  intros H Hi Hc.
  rewrite (turn_decoded env self fuel url p acc w _ H), Hi, Hc. reflexivity.
Qed.

End PaginationRule.

(** C7. A response whose body is a JSON sequence ends the loop at once,
    with exactly its elements appended to the accumulator; so when the
    first response is the sequence [l], [extract] issues exactly one
    request, whatever [pagination_key] is, and hands [l] to
    [pd.DataFrame]: for records that are mappings it returns a result
    whose data is [l]. *)
Theorem sequence_page_is_terminal env (self : APIExtractor.t) (fuel : nat)
    (l : list value) (resp : Response) :
  status_error resp = None ->
  body resp = inr (VList l) ->
  (forall url p acc w,
     http_get env (calls w) url (deref w (APIExtractor.headers self)) (deref w p)
     = inr resp ->
     APIExtractor.fetch_pages env (S fuel) self url p acc w
     = (Return (acc ++ l)%list,
        mkWorld (heap w)
          (calls w ++ [client_get url (deref w (APIExtractor.headers self))
                         (deref w p)])%list
          (logs w)))
  /\ (forall w,
        is_Some (heap w !! APIExtractor.headers self) ->
        http_get env (calls w) (url_of self)
          (deref w (APIExtractor.headers self)) (deref w (APIExtractor.params self))
        = inr resp ->
        let run := APIExtractor.extract env (S fuel) self w in
        let request := client_get (url_of self) (deref w (APIExtractor.headers self))
                         (deref w (APIExtractor.params self)) in
        calls (snd run) = (calls w ++ [request])%list
        /\ outcome_map data (fst run)
           = match pd_DataFrame env l with
             | inr df => Return df
             | inl e => Raise e
             end
        /\ (forallb is_mapping l = true ->
            exists r w',
              run = (Return r, w')
              /\ data r = l
              /\ record_count r = Z.of_nat (length l)
              /\ calls w' = (calls w ++ [request])%list)).
Proof.
  intros Hs Hb. split.
  - intros url p acc w Hg.
    apply turn_sequence, (page_at_ok env self url p w resp _ Hg Hs Hb).
  - intros w Hh Hg run request. subst run request.
    assert (Hl : APIExtractor.fetch_pages env (S fuel) self (url_of self)
                   (fresh (dom (heap w))) [] (prepared self w)
                 = (Return l, requested self (url_of self) (fresh (dom (heap w)))
                                (prepared self w))).
    { apply (turn_sequence env self fuel (url_of self) _ [] (prepared self w) l).
      apply (page_at_ok env self _ _ _ resp); [|exact Hs|exact Hb].
      rewrite prepared_params, (prepared_other self w _ Hh). exact Hg. }
    assert (Hc : calls (requested self (url_of self) (fresh (dom (heap w)))
                          (prepared self w))
                 = (calls w ++ [client_get (url_of self)
                                  (deref w (APIExtractor.headers self))
                                  (deref w (APIExtractor.params self))])%list).
    { unfold requested; simpl.
      rewrite prepared_params, (prepared_other self w _ Hh). reflexivity. }
    split; [rewrite api_extract_world, Hl; exact Hc|].
    split.
    + rewrite api_extract_run, Hl. destruct (pd_DataFrame env l); reflexivity.
    + intros Hm. rewrite (api_extract_returned env self _ _ _ _ Hl Hm).
      do 2 eexists. split; [reflexivity|]. repeat split. exact Hc.
Qed.

Lemma site_headers : is_Some (heap site !! 1%positive).
Proof. eexists. reflexivity. Qed.

Lemma sequence_page_is_terminal_witness :
  let ann := VDict [("id", VInt 1); ("name", VStr "Ann")] in
  let bob := VDict [("id", VInt 2)] in
  let env := mock [ok_json (VList [ann; bob])] [] in
  let request :=
    client_get "https://api.example.com/v1/users" ∅ (<["limit" := VInt 50]> ∅) in
  (exists r w',
     APIExtractor.extract env 1 users site = (Return r, w')
     /\ data r = [ann; bob] /\ record_count r = 2 /\ calls w' = [request])
  /\ (exists r w',
        APIExtractor.extract env 1 users_unpaged site = (Return r, w')
        /\ data r = [ann; bob] /\ record_count r = 2 /\ calls w' = [request]).
Proof.
  intros ann bob env request. split.
  - destruct (sequence_page_is_terminal env users 0 [ann; bob]
                (ok_json (VList [ann; bob])) eq_refl eq_refl) as [_ H].
    destruct (H site site_headers eq_refl) as (_ & _ & H').
    apply H'. reflexivity.
  - destruct (sequence_page_is_terminal env users_unpaged 0 [ann; bob]
                (ok_json (VList [ann; bob])) eq_refl eq_refl) as [_ H].
    destruct (H site site_headers eq_refl) as (_ & _ & H').
    apply H'. reflexivity.
Defined.

(** C3. With pagination key [next], when the first GET returns
    [{"data": [r1, r2], "next": "abc"}] and the second
    [{"data": [r3], "next": null}], [extract] issues exactly two requests,
    the second with the original parameters plus [cursor = "abc"], and
    hands [r1, r2, r3], in that order, to [pd.DataFrame]; for records that
    are mappings it returns a result whose data is [r1, r2, r3]. *)
Theorem two_page_pagination (r1 r2 r3 : value) (frame : DataFrame)
    (name base_url endpoint : string) (hl pl : loc)
    (hp : gmap loc (gmap string value)) (lg : list log_record) (fuel : nat) :
  let self := APIExtractor.mk name base_url endpoint hl pl (Some "next") in
  let w := mkWorld hp [] lg in
  let env := mock [ok_json (VDict (page_one r1 r2)); ok_json (VDict (page_two r3))]
               frame in
  let url := base_url +:+ "/" +:+ endpoint in
  let headers := deref w hl in
  let params := deref w pl in
  let requests := [client_get url headers params;
                   client_get url headers (<["cursor" := VStr "abc"]> params)] in
  let run := APIExtractor.extract env (S (S fuel)) self w in
  is_Some (hp !! hl) ->
  calls (snd run) = requests
  /\ outcome_map data (fst run)
     = match pd_DataFrame env [r1; r2; r3] with
       | inr df => Return df
       | inl e => Raise e
       end
  /\ (forallb is_mapping [r1; r2; r3] = true ->
      exists r w',
        run = (Return r, w')
        /\ data r = [r1; r2; r3]
        /\ record_count r = 3
        /\ calls w' = requests).
Proof.
  intros self w env url headers params requests run Hh. subst run requests.
  set (p := fresh (dom (heap w))).
  assert (Hp : deref (prepared self w) p = params) by apply prepared_params.
  assert (Hq : deref (prepared self w) hl = headers)
    by apply (prepared_other self w hl Hh).
  assert (Hl : exists w2,
             APIExtractor.fetch_pages env (S (S fuel)) self (url_of self) p []
               (prepared self w) = (Return [r1; r2; r3], w2)
             /\ calls w2
                = [client_get url headers params;
                   client_get url headers (<["cursor" := VStr "abc"]> params)]).
  { rewrite (turn_more env self (S fuel) (url_of self) p [] (prepared self w)
               (page_one r1 r2) [r1; r2] "next" (VStr "abc"));
      try reflexivity.
    rewrite (turn_last env self fuel (url_of self) p _ _ (page_two r3) [r3]);
      try reflexivity.
    eexists. split; [reflexivity|].
    unfold requested; simpl.
    rewrite deref_insert, Hp, Hq.
    rewrite (deref_insert_ne (prepared self w)), Hq; [reflexivity|].
    apply (allocated_not_fresh w hl Hh). }
  destruct Hl as (w2 & Hl & Hc).
  split; [rewrite api_extract_world; fold p; rewrite Hl; exact Hc|].
  split.
  - rewrite api_extract_run. fold p. rewrite Hl.
    destruct (pd_DataFrame env [r1; r2; r3]); reflexivity.
  - intros Hm. rewrite (api_extract_returned env self _ w w2 _ Hl Hm).
    do 2 eexists. split; [reflexivity|]. repeat split. exact Hc.
Qed.

Lemma two_page_pagination_witness :
  let ann := VDict [("id", VInt 1); ("name", VStr "Ann")] in
  let bob := VDict [("id", VInt 2)] in
  let cid := VDict [("id", VInt 3); ("admin", VBool true)] in
  let env := mock [ok_json (VDict (page_one ann bob));
                   ok_json (VDict (page_two cid))] [] in
  let url := "https://api.example.com/v1/users" in
  exists r w',
    APIExtractor.extract env 2 users site = (Return r, w')
    /\ data r = [ann; bob; cid]
    /\ record_count r = 3
    /\ calls w' = [client_get url ∅ (<["limit" := VInt 50]> ∅);
                   client_get url ∅
                     (<["cursor" := VStr "abc"]> (<["limit" := VInt 50]> ∅))].
Proof.
  intros ann bob cid env url.
  destruct (two_page_pagination ann bob cid [] "users"
              "https://api.example.com" "v1/users" 1%positive 2%positive
              (heap site) [] 0 site_headers) as (_ & _ & H).
  apply H. reflexivity.
Defined.

(** C9. One call to [APIExtractor.extract] changes no dictionary that
    existed before the call, however the call ends: [self.params] and
    [self.headers] keep their content, since [cursor] is written to a copy
    allocated for the call.  The extractor's attributes themselves are
    never assigned to.  A second [extract] on the same instance therefore
    opens with a request carrying the original parameters. *)
Theorem extract_leaves_configuration env (self : APIExtractor.t)
    (fuel fuel' : nat) (w : World) :
  is_Some (heap w !! APIExtractor.headers self) ->
  is_Some (heap w !! APIExtractor.params self) ->
  let w' := snd (APIExtractor.extract env fuel self w) in
  (forall l d, heap w !! l = Some d -> heap w' !! l = Some d)
  /\ deref w' (APIExtractor.params self) = deref w (APIExtractor.params self)
  /\ deref w' (APIExtractor.headers self) = deref w (APIExtractor.headers self)
  /\ exists more,
       calls (snd (APIExtractor.extract env (S fuel') self w'))
       = (calls w'
          ++ client_get (url_of self) (deref w (APIExtractor.headers self))
               (deref w (APIExtractor.params self)) :: more)%list.
Proof.
  intros Hh Hp w'.
  assert (Hframe : forall l d, heap w !! l = Some d -> heap w' !! l = Some d).
  { intros l d Hl. subst w'. rewrite api_extract_world.
    destruct (fetch_pages_frame env self fuel (url_of self)
                (fresh (dom (heap w))) [] (prepared self w)) as (F & _ & _).
    assert (Hne : l <> fresh (dom (heap w))).
    { intros ->. rewrite fresh_unallocated in Hl. discriminate. }
    rewrite (F l Hne). simpl. rewrite lookup_insert_ne; auto. }
  assert (Hsame : forall l, is_Some (heap w !! l) -> deref w' l = deref w l).
  { intros l [d Hl]. unfold deref. rewrite (Hframe l d Hl), Hl. reflexivity. }
  split; [exact Hframe|].
  split; [apply Hsame, Hp|].
  split; [apply Hsame, Hh|].
  assert (Hh' : is_Some (heap w' !! APIExtractor.headers self)).
  { destruct Hh as [d Hd]. exists d. apply Hframe, Hd. }
  rewrite api_extract_world.
  destruct (fetch_pages_first_call env self fuel' (url_of self)
              (fresh (dom (heap w'))) [] (prepared self w')) as [more Hc].
  exists more.
  rewrite prepared_params, (prepared_other self w' _ Hh') in Hc.
  rewrite (Hsame _ Hp), (Hsame _ Hh) in Hc.
  exact Hc.
Qed.

Lemma site_params : is_Some (heap site !! 2%positive).
Proof. eexists. reflexivity. Qed.

Lemma extract_leaves_configuration_witness :
  let env := mock [ok_json (VDict (page_one (VInt 1) (VInt 2)));
                   ok_json (VDict (page_two (VInt 3)))] [] in
  let w' := snd (APIExtractor.extract env 2 users site) in
  deref w' 2%positive = <["limit" := VInt 50]> ∅
  /\ exists more,
       calls (snd (APIExtractor.extract env 1 users w'))
       = (calls w'
          ++ client_get "https://api.example.com/v1/users" ∅
               (<["limit" := VInt 50]> ∅) :: more)%list.
Proof.
  intros env w'.
  destruct (extract_leaves_configuration env users 2 0 site site_headers site_params)
    as (_ & H1 & _ & H2).
  split; [exact H1|exact H2].
Defined.

(** ** Sanity checks of the embedding on concrete runs *)

(** The constructor strips the slashes and allocates the two
    dictionaries that were not given. *)
Example api_init_example :
  APIExtractor.init "users" "https://api.example.com//" "/v1/users" None None
    (Some "next") empty_world
  = (Return (APIExtractor.mk "users" "https://api.example.com" "v1/users"
               1%positive 2%positive (Some "next")),
     mkWorld (<[2%positive := ∅]> (<[1%positive := ∅]> ∅)) [] []).
Proof. reflexivity. Qed.

(** In the two-page run the cursor lands in the copy, at a new
    location. *)
Example cursor_written_to_copy :
  let env := mock [ok_json (VDict (page_one (VInt 1) (VInt 2)));
                   ok_json (VDict (page_two (VInt 3)))] [] in
  heap (snd (APIExtractor.extract env 2 users site)) !! 3%positive
  = Some (<["cursor" := VStr "abc"]> (<["limit" := VInt 50]> ∅)).
Proof. vm_compute. reflexivity. Qed.

(** A body that is neither a sequence nor a mapping is requested again,
    until the budget runs out. *)
Example scalar_page_loops :
  let env := mock [ok_json (VInt 1); ok_json (VInt 1); ok_json (VInt 1)] [] in
  fst (APIExtractor.extract env 3 users site) = OutOfFuel
  /\ length (calls (snd (APIExtractor.extract env 3 users site))) = 3%nat.
Proof. vm_compute. split; reflexivity. Qed.

(** The text of the incremental query. *)
Example incremental_query_example :
  DatabaseExtractor.incremental_query "SELECT 1" "ts"
  = Str.nl +:+ "                SELECT * FROM (SELECT 1) AS base"
    +:+ Str.nl +:+ "                WHERE ts > :since"
    +:+ Str.nl +:+ "            ".
Proof. reflexivity. Qed.

Example detect_format_examples :
  FileExtractor._detect_format "a/b.c/report.XLS" = "excel"
  /\ FileExtractor._detect_format "data.csv" = "csv"
  /\ FileExtractor._detect_format "archive.tar.GZ" = "gz"
  /\ FileExtractor._detect_format "Makefile" = "makefile"
  /\ FileExtractor._detect_format "trailing." = ""
  /\ FileExtractor._detect_format "XLSX" = "excel".
Proof. repeat split. Qed.

(** * Further properties *)

(** ** validate *)

(** X1. On a constructed result, [validate] holds exactly when
    [record_count] is positive, and fails exactly when the data has no
    rows. *)
Theorem validate_iff_counted (df : DataFrame) (src : string) (at_ : datetime)
    (meta : gmap string value) (supplied : Z) :
  let r := ExtractionResult_init df src at_ meta supplied in
  BaseExtractor.validate r = (0 <? record_count r)
  /\ (BaseExtractor.validate r = false <-> df = []).
Proof.
  destruct df as [|x df]; simpl; split; try reflexivity; split; intros H;
    try reflexivity; discriminate.
Qed.

(** ** Results of the three extractors *)

Lemma file_extract_returns env (self : FileExtractor.t) (w w' : World)
    (r : ExtractionResult) :
  FileExtractor.extract env self w = (Return r, w') ->
  exists df c,
    r = ExtractionResult_init df ("file:" +:+ FileExtractor.file_path self)
          (utcnow env (calls w'))
          (<["format" := VStr (FileExtractor.file_format self)]>
             (<["path" := VStr (FileExtractor.file_path self)]> ∅)) 0
    /\ calls w' = (calls w ++ [c])%list
    /\ heap w' = heap w
    /\ Str.mem (FileExtractor.file_format self) FileExtractor.SUPPORTED_FORMATS = true.
Proof.
  unfold FileExtractor.extract, bind, logger_info, Str.mem,
    FileExtractor.SUPPORTED_FORMATS; simpl.
  destruct (String.eqb (FileExtractor.file_format self) "csv");
    [|destruct (String.eqb (FileExtractor.file_format self) "json");
      [|destruct (String.eqb (FileExtractor.file_format self) "parquet");
        [|destruct (String.eqb (FileExtractor.file_format self) "excel")]]];
    simpl;
    unfold pd_read_csv_, pd_read_json_, pd_read_parquet_, pd_read_excel_,
      new_result, history, record, bind; simpl;
    try (match goal with
         | |- context [lift_answer ?a] => destruct a
         end; simpl; intros [= <- <-]; do 2 eexists; repeat split);
    try discriminate.
Qed.

(** X2. Every result an extractor returns is tagged with its kind: the
    database extractor with [database:<name>], the API extractor with
    [api:<name>], the file extractor with [file:<path>]. *)
Theorem source_tags env (r : ExtractionResult) (w w' : World) :
  (forall self, DatabaseExtractor.extract env self w = (Return r, w') ->
     source r = "database:" +:+ DatabaseExtractor.name self)
  /\ (forall self since col,
        DatabaseExtractor.extract_incremental env self since col w = (Return r, w') ->
        source r = "database:" +:+ DatabaseExtractor.name self)
  /\ (forall fuel self, APIExtractor.extract env fuel self w = (Return r, w') ->
        source r = "api:" +:+ APIExtractor.name self)
  /\ (forall self, FileExtractor.extract env self w = (Return r, w') ->
        source r = "file:" +:+ FileExtractor.file_path self).
Proof.
  repeat split.
  - intros self. rewrite db_extract_run; simpl.
    destruct (read_sql env _ _ _ _); intros [= <- <-]; reflexivity.
  - intros self [T|] col.
    + rewrite db_incremental_some_run; simpl.
      destruct (read_sql env _ _ _ _); intros [= <- <-]; reflexivity.
    + rewrite db_incremental_none_run; simpl.
      destruct (read_sql env _ _ _ _); intros [= <- <-]; reflexivity.
  - intros fuel self. rewrite api_extract_run.
    destruct (APIExtractor.fetch_pages _ _ _ _ _ _ _) as [[all|e|] w1];
      try discriminate.
    destruct (pd_DataFrame env all); intros [= <- <-]; reflexivity.
  - intros self H. apply file_extract_returns in H as (df & c & -> & _).
    reflexivity.
Qed.

Lemma source_tags_witness :
  exists r w',
    DatabaseExtractor.extract (mock [] [VInt 7]) orders shop = (Return r, w')
    /\ source r = "database:orders".
Proof.
  do 2 eexists. split; [reflexivity|].
  refine (proj1 (source_tags (mock [] [VInt 7]) _ shop _) orders _).
  reflexivity.
Defined.

(** ** DatabaseExtractor *)

(** X3. A failure of the query engine becomes the failure of the call,
    from [extract] and from [extract_incremental] with or without
    [since]: no result is produced. *)
Theorem engine_failure_propagates env (self : DatabaseExtractor.t)
    (col : string) (w : World) (e : exn) :
  let q := DatabaseExtractor.query self in
  let con := DatabaseExtractor.connection_string self in
  let p := deref w (DatabaseExtractor.params self) in
  (read_sql env (calls w) q con p = inl e ->
   fst (DatabaseExtractor.extract env self w) = Raise e
   /\ fst (DatabaseExtractor.extract_incremental env self None col w) = Raise e)
  /\ (forall T,
        read_sql env (calls w) (DatabaseExtractor.incremental_query q col) con
          (<["since" := VDatetime T]> p) = inl e ->
        fst (DatabaseExtractor.extract_incremental env self (Some T) col w) = Raise e).
Proof.
  intros q con p. subst q con p. split.
  - intros H. rewrite db_extract_run, db_incremental_none_run; simpl.
    rewrite H. split; reflexivity.
  - intros T H. rewrite db_incremental_some_run; simpl. rewrite H. reflexivity.
Qed.

Lemma engine_failure_propagates_witness :
  let env := failing (Failure "OperationalError") in
  (fst (DatabaseExtractor.extract env orders shop) = Raise (Failure "OperationalError")
   /\ fst (DatabaseExtractor.extract_incremental env orders None "updated_at" shop)
      = Raise (Failure "OperationalError"))
  /\ fst (DatabaseExtractor.extract_incremental env orders (Some 5) "updated_at" shop)
     = Raise (Failure "OperationalError").
Proof.
  intros env.
  destruct (engine_failure_propagates env orders "updated_at" shop
              (Failure "OperationalError")) as [H1 H2].
  split; [apply H1; reflexivity|apply H2; reflexivity].
Defined.

(** X4. [extract_incremental] changes no dictionary that existed before
    the call: the binding of [since] goes into a new dictionary, not into
    [self.params].  An [extract] that follows therefore calls the engine
    with the base query and the original parameters. *)
Theorem incremental_keeps_params env (self : DatabaseExtractor.t)
    (since : option datetime) (col : string) (w : World) :
  is_Some (heap w !! DatabaseExtractor.params self) ->
  let w' := snd (DatabaseExtractor.extract_incremental env self since col w) in
  (forall l d, heap w !! l = Some d -> heap w' !! l = Some d)
  /\ deref w' (DatabaseExtractor.params self) = deref w (DatabaseExtractor.params self)
  /\ calls (snd (DatabaseExtractor.extract env self w'))
     = (calls w' ++ [pd_read_sql (DatabaseExtractor.query self)
                       (DatabaseExtractor.connection_string self)
                       (deref w (DatabaseExtractor.params self))])%list.
Proof.
  intros Hp w'.
  assert (Hframe : forall l d, heap w !! l = Some d -> heap w' !! l = Some d).
  { intros l d Hl. subst w'. destruct since as [T|].
    - rewrite db_incremental_some_run.
      assert (Hne : fresh (dom (heap w)) <> l).
      { intros <-. rewrite fresh_unallocated in Hl. discriminate. }
      destruct (read_sql env _ _ _ _); simpl; rewrite lookup_insert_ne; auto.
    - rewrite db_incremental_none_run.
      destruct (read_sql env _ _ _ _); simpl; exact Hl. }
  assert (Hsame : deref w' (DatabaseExtractor.params self)
                  = deref w (DatabaseExtractor.params self)).
  { destruct Hp as [d Hd]. unfold deref. rewrite (Hframe _ d Hd), Hd. reflexivity. }
  split; [exact Hframe|]. split; [exact Hsame|].
  rewrite db_extract_run, Hsame.
  destruct (read_sql env _ _ _ _); reflexivity.
Qed.

Lemma shop_params : is_Some (heap shop !! DatabaseExtractor.params orders).
Proof. eexists. reflexivity. Qed.

Lemma incremental_keeps_params_witness :
  let env := mock [] [VInt 7] in
  let w' := snd (DatabaseExtractor.extract_incremental env orders (Some 5)
                   "updated_at" shop) in
  deref w' 1%positive = ∅
  /\ calls (snd (DatabaseExtractor.extract env orders w'))
     = (calls w' ++ [pd_read_sql "SELECT * FROM orders" "sqlite:///shop.db" ∅])%list.
Proof.
  intros env w'.
  destruct (incremental_keeps_params env orders (Some 5) "updated_at" shop shop_params)
    as (_ & H1 & H2).
  split; [exact H1|exact H2].
Defined.

Lemma prefix_split (n : nat) (s : string) :
  exists rest, s = Str.prefix n s +:+ rest
               /\ String.length (Str.prefix n s) = Nat.min n (String.length s).
Proof.
  unfold Str.prefix. revert s. induction n as [|n IH]; intros s.
  - exists s. destruct s; split; reflexivity.
  - destruct s as [|c s]; simpl.
    + exists EmptyString. split; reflexivity.
    + destruct (IH s) as (rest & H1 & H2). exists rest. split.
      * change (String c s = String c (String.substring 0 n s +:+ rest)).
        f_equal. exact H1.
      * simpl. f_equal. exact H2.
Qed.

(** X5. [extract] writes exactly one log record, whose [query] field is
    the first hundred characters of the query (the whole query when it is
    shorter); [extract_incremental] writes none. *)
Theorem database_logging env (self : DatabaseExtractor.t)
    (since : option datetime) (col : string) (w : World) :
  exists shown rest,
    logs (snd (DatabaseExtractor.extract env self w))
    = (logs w ++ [mkLog (DatabaseExtractor.name self) "Extracting data"
                    [("query", VStr shown)]])%list
    /\ DatabaseExtractor.query self = shown +:+ rest
    /\ String.length shown
       = Nat.min 100 (String.length (DatabaseExtractor.query self))
    /\ logs (snd (DatabaseExtractor.extract_incremental env self since col w))
       = logs w.
Proof.
  destruct (prefix_split 100 (DatabaseExtractor.query self)) as (rest & H1 & H2).
  exists (Str.prefix 100 (DatabaseExtractor.query self)), rest.
  split; [|split; [exact H1|split; [exact H2|]]].
  - rewrite db_extract_run. destruct (read_sql env _ _ _ _); reflexivity.
  - destruct since as [T|].
    + rewrite db_incremental_some_run. destruct (read_sql env _ _ _ _); reflexivity.
    + rewrite db_incremental_none_run. destruct (read_sql env _ _ _ _); reflexivity.
Qed.

(** ** FileExtractor *)

(** X6. When [extract] returns, the format was one of the four supported
    ones, exactly one decoder was called, the store is untouched, and the
    metadata of the result records the resolved format and the path. *)
Theorem file_result_shape env (self : FileExtractor.t) (w w' : World)
    (r : ExtractionResult) :
  FileExtractor.extract env self w = (Return r, w') ->
  Str.mem (FileExtractor.file_format self) FileExtractor.SUPPORTED_FORMATS = true
  /\ metadata r !! "format" = Some (VStr (FileExtractor.file_format self))
  /\ metadata r !! "path" = Some (VStr (FileExtractor.file_path self))
  /\ record_count r = Z.of_nat (length (data r))
  /\ heap w' = heap w
  /\ exists c, calls w' = (calls w ++ [c])%list.
Proof.
  intros H. apply file_extract_returns in H as (df & c & -> & Hc & Hh & Hm).
  split; [exact Hm|]. split; [reflexivity|]. split; [reflexivity|].
  split; [reflexivity|]. split; [exact Hh|]. exists c. exact Hc.
Qed.

Lemma file_result_shape_witness :
  exists r w',
    FileExtractor.extract (mock [] [VInt 1; VInt 2])
      (FileExtractor.init "table" "table.CSV" None ∅) empty_world = (Return r, w')
    /\ metadata r !! "format" = Some (VStr "csv")
    /\ metadata r !! "path" = Some (VStr "table.CSV")
    /\ record_count r = 2.
Proof.
  do 2 eexists. split; [reflexivity|].
  pose proof (file_result_shape (mock [] [VInt 1; VInt 2])
                (FileExtractor.init "table" "table.CSV" None ∅)
                empty_world _ _ eq_refl) as (_ & H1 & H2 & H3 & _).
  split; [exact H1|]. split; [exact H2|exact H3].
Defined.

(** X7. A failure of the decoder the format selects becomes the failure
    of [extract]. *)
Theorem decoder_failure_propagates env (self : FileExtractor.t) (w : World)
    (e : exn) :
  let path := FileExtractor.file_path self in
  let options := FileExtractor.read_options self in
  let run := FileExtractor.extract env self w in
  (FileExtractor.file_format self = "csv" ->
   read_csv env (calls w) path options = inl e -> fst run = Raise e)
  /\ (FileExtractor.file_format self = "json" ->
      read_json env (calls w) path options = inl e -> fst run = Raise e)
  /\ (FileExtractor.file_format self = "parquet" ->
      read_parquet env (calls w) path options = inl e -> fst run = Raise e)
  /\ (FileExtractor.file_format self = "excel" ->
      read_excel env (calls w) path options = inl e -> fst run = Raise e).
Proof.
  intros path options run. subst path options run.
  destruct self as [n p f o]; simpl.
  repeat split; intros -> H;
    unfold FileExtractor.extract, bind; cbn; rewrite H; reflexivity.
Qed.

Lemma decoder_failure_propagates_witness :
  fst (FileExtractor.extract (failing (Failure "FileNotFoundError"))
         (FileExtractor.init "book" "book.xlsx" None ∅) empty_world)
  = Raise (Failure "FileNotFoundError").
Proof.
  destruct (decoder_failure_propagates (failing (Failure "FileNotFoundError"))
              (FileExtractor.init "book" "book.xlsx" None ∅) empty_world
              (Failure "FileNotFoundError")) as (_ & _ & _ & H).
  apply H; reflexivity.
Defined.

(** X8. An explicit, non-empty format is taken as given: it is neither
    lower-cased nor mapped to [excel], and the path plays no part; so an
    explicit format that is not literally one of the four supported names
    makes [extract] raise, whatever the extension of the path.  An empty
    explicit format is the same as none. *)
Theorem explicit_format_is_literal env (name path f : string)
    (options : gmap string value) (w : World) :
  Str.truthy f = true ->
  let self := FileExtractor.init name path (Some f) options in
  FileExtractor.file_format self = f
  /\ (Str.mem f FileExtractor.SUPPORTED_FORMATS = false ->
      fst (FileExtractor.extract env self w)
      = Raise (ValueError ("Unsupported format: " +:+ f))
      /\ calls (snd (FileExtractor.extract env self w)) = calls w)
  /\ FileExtractor.init name path (Some "") options
     = FileExtractor.init name path None options.
Proof.
  intros Hf self.
  assert (E : FileExtractor.file_format self = f).
  { subst self. simpl. rewrite Hf. reflexivity. }
  split; [exact E|]. split; [|reflexivity].
  intros Hm. rewrite <- E in Hm.
  rewrite (extract_unsupported env self w Hm), E. split; reflexivity.
Qed.

Lemma explicit_format_is_literal_witness :
  let self := FileExtractor.init "table" "table.csv" (Some "CSV") ∅ in
  FileExtractor.file_format self = "CSV"
  /\ fst (FileExtractor.extract (mock [] []) self empty_world)
     = Raise (ValueError "Unsupported format: CSV")
  /\ calls (snd (FileExtractor.extract (mock [] []) self empty_world)) = [].
Proof.
  intros self.
  destruct (explicit_format_is_literal (mock [] []) "table" "table.csv" "CSV" ∅
              empty_world eq_refl) as (H1 & H2 & _).
  split; [exact H1|]. apply H2. reflexivity.
Defined.

Lemma lower_char_dot (c : ascii) :
  Ascii.eqb (Str.lower_char c) "." = Ascii.eqb c ".".
Proof. destruct c as [[] [] [] [] [] [] [] []]; reflexivity. Qed.

Lemma lower_char_idem (c : ascii) :
  Str.lower_char (Str.lower_char c) = Str.lower_char c.
Proof. destruct c as [[] [] [] [] [] [] [] []]; reflexivity. Qed.

Lemma lower_idem (s : string) : Str.lower (Str.lower s) = Str.lower s.
Proof.
  induction s as [|c s IH]; simpl; [reflexivity|].
  rewrite lower_char_idem, IH. reflexivity.
Qed.

Lemma has_dot_lower (s : string) :
  Str.has_char "." (Str.lower s) = Str.has_char "." s.
Proof.
  induction s as [|c s IH]; simpl; [reflexivity|].
  rewrite lower_char_dot, IH. reflexivity.
Qed.

Lemma rcut_none_clean (sep : ascii) (s : string) :
  Str.rcut sep s = None -> Str.has_char sep s = false.
Proof.
  induction s as [|d s IH]; simpl; [reflexivity|].
  destruct (Str.rcut sep s) as [[? ?]|]; [discriminate|].
  destruct (Ascii.eqb d sep); [discriminate|]. intros _. apply IH. reflexivity.
Qed.

Lemma rcut_tail_clean (sep : ascii) (s a b : string) :
  Str.rcut sep s = Some (a, b) -> Str.has_char sep b = false.
Proof.
  revert a b. induction s as [|c s IH]; simpl; intros a b; [discriminate|].
  destruct (Str.rcut sep s) as [[a' b']|] eqn:E.
  - intros [= <- <-]. apply (IH a' b'). reflexivity.
  - destruct (Ascii.eqb c sep); [|discriminate].
    intros [= <- <-]. apply rcut_none_clean, E.
Qed.

Lemma last_part_clean (sep : ascii) (s : string) :
  Str.has_char sep (Str.last_part (Str.rsplit1 sep s)) = false.
Proof.
  unfold Str.rsplit1. destruct (Str.rcut sep s) as [[a b]|] eqn:E; simpl.
  - apply (rcut_tail_clean sep s a b E).
  - apply rcut_none_clean, E.
Qed.

(** X9. Whatever the path, the detected format contains no dot, is in
    lower case, and is never [xlsx] or [xls]. *)
Theorem detected_format_shape (path : string) :
  let f := FileExtractor._detect_format path in
  Str.has_char "." f = false
  /\ Str.lower f = f
  /\ f <> "xlsx" /\ f <> "xls".
Proof.
  intros f. subst f. unfold FileExtractor._detect_format.
  set (ext := Str.lower (Str.last_part (Str.rsplit1 "." path))).
  destruct (Str.mem ext ["xlsx"; "xls"]) eqn:Hm.
  - repeat split; discriminate.
  - split; [subst ext; rewrite has_dot_lower; apply last_part_clean|].
    split; [subst ext; apply lower_idem|].
    split; intros E; rewrite E in Hm; discriminate.
Qed.

(** ** Constructors *)

Lemma lstrip_split (c : ascii) (s : string) :
  exists k, s = copies c k +:+ Str.lstrip c s
            /\ starts_with c (Str.lstrip c s) = false.
Proof.
  induction s as [|d s (k & H1 & H2)]; simpl.
  - exists O. split; reflexivity.
  - destruct (Ascii.eqb_spec d c) as [->|Hd].
    + exists (S k). split; [|exact H2].
      change (String c s = String c (copies c k +:+ Str.lstrip c s)).
      f_equal. exact H1.
    + exists O. split; [reflexivity|]. simpl.
      apply Ascii.eqb_neq, Hd.
Qed.

Lemma rstrip_split (c : ascii) (s : string) :
  exists k, s = Str.rstrip c s +:+ copies c k
            /\ ends_with c (Str.rstrip c s) = false.
Proof.
  induction s as [|d s (k & H1 & H2)]; simpl.
  - exists O. split; reflexivity.
  - destruct (Str.rstrip c s) as [|x r] eqn:E.
    + destruct (Ascii.eqb_spec d c) as [->|Hd].
      * exists (S k). split; [|reflexivity].
        change (String c s = String c (copies c k)). f_equal. exact H1.
      * exists k. split.
        -- change (String d s = String d (EmptyString +:+ copies c k)).
           f_equal. exact H1.
        -- simpl. apply Ascii.eqb_neq, Hd.
    + exists k. split.
      * change (String d s = String d (String x r +:+ copies c k)).
        f_equal. exact H1.
      * exact H2.
Qed.

(** What [d or {}] does: it hands back the given dictionary when that is
    non-empty, and otherwise allocates a new empty one. *)
Lemma or_empty_cases (d : option loc) (w : World) :
  (exists l, d = Some l /\ deref w l <> ∅ /\ or_empty d w = (Return l, w))
  \/ ((d = None \/ exists l, d = Some l /\ deref w l = ∅)
      /\ or_empty d w
         = (Return (fresh (dom (heap w))),
            mkWorld (<[fresh (dom (heap w)) := ∅]> (heap w)) (calls w) (logs w))).
Proof.
  destruct d as [l|]; simpl.
  - unfold bind, load; simpl.
    destruct (bool_decide (deref w l = ∅)) eqn:E.
    + right. apply bool_decide_eq_true in E. split; [right; eauto|reflexivity].
    + left. apply bool_decide_eq_false in E. exists l. repeat split. exact E.
  - right. split; [left; reflexivity|reflexivity].
Qed.

Lemma deref_nonempty_allocated (w : World) (l : loc) :
  deref w l <> ∅ -> is_Some (heap w !! l).
Proof.
  unfold deref. destruct (heap w !! l) as [x|]; simpl; [eauto|congruence].
Qed.

(** [d or {}] returns an allocated dictionary and leaves the rest of the
    world as it was. *)
Lemma or_empty_allocates (d : option loc) (w : World) :
  exists l w',
    or_empty d w = (Return l, w')
    /\ is_Some (heap w' !! l)
    /\ (forall l0 x, heap w !! l0 = Some x -> heap w' !! l0 = Some x)
    /\ calls w' = calls w /\ logs w' = logs w
    /\ (forall l0, d = Some l0 -> deref w l0 <> ∅ -> l = l0)
    /\ (forall l0, d = Some l0 -> is_Some (heap w !! l0) -> deref w l0 = ∅ ->
        l <> l0 /\ deref w' l = ∅).
Proof.
  destruct (or_empty_cases d w) as [(l & -> & Hne & ->)|[Hd ->]].
  - exists l, w. split; [reflexivity|].
    split; [apply deref_nonempty_allocated, Hne|].
    split; [auto|]. split; [reflexivity|]. split; [reflexivity|].
    split; [intros l0 [= <-] _; reflexivity|].
    intros l0 [= <-] _ E. contradiction.
  - do 2 eexists. split; [reflexivity|]. simpl.
    split; [rewrite lookup_insert_eq; eauto|].
    split.
    { intros l0 x Hl. rewrite lookup_insert_ne; [exact Hl|].
      intros E. rewrite <- E, fresh_unallocated in Hl. discriminate. }
    split; [reflexivity|]. split; [reflexivity|].
    split.
    { intros l0 -> Hne. destruct Hd as [Hd|(l1 & [= <-] & Hd)];
        [discriminate|contradiction]. }
    intros l0 -> Hl _.
    split; [apply allocated_not_fresh, Hl|apply deref_insert].
Qed.

(** X10. The constructor of [APIExtractor] removes the trailing slashes
    of the base URL and the leading slashes of the endpoint, and nothing
    else: what is stored neither ends, respectively begins, with a slash,
    and differs from what was given by a run of slashes only. *)
Theorem api_init_strips_slashes (name base_url endpoint : string)
    (headers params : option loc) (key : option string)
    (w w' : World) (self : APIExtractor.t) :
  APIExtractor.init name base_url endpoint headers params key w = (Return self, w') ->
  exists i j,
    base_url = APIExtractor.base_url self +:+ copies "/" i
    /\ endpoint = copies "/" j +:+ APIExtractor.endpoint self
    /\ ends_with "/" (APIExtractor.base_url self) = false
    /\ starts_with "/" (APIExtractor.endpoint self) = false
    /\ APIExtractor.name self = name
    /\ APIExtractor.pagination_key self = key.
Proof.
  unfold APIExtractor.init, bind.
  destruct (or_empty_allocates headers w) as (h & w1 & -> & _).
  destruct (or_empty_allocates params w1) as (p & w2 & -> & _).
  intros [= <- <-]. simpl.
  destruct (rstrip_split "/" base_url) as (i & H1 & H2).
  destruct (lstrip_split "/" endpoint) as (j & H3 & H4).
  exists i, j. repeat split; assumption.
Qed.

Lemma api_init_strips_slashes_witness :
  exists self w' i j,
    APIExtractor.init "users" "https://api.example.com//" "/v1/users/" None None
      (Some "next") empty_world = (Return self, w')
    /\ "https://api.example.com//" = APIExtractor.base_url self +:+ copies "/" i
    /\ "/v1/users/" = copies "/" j +:+ APIExtractor.endpoint self
    /\ ends_with "/" (APIExtractor.base_url self) = false
    /\ starts_with "/" (APIExtractor.endpoint self) = false.
Proof.
  destruct (api_init_strips_slashes "users" "https://api.example.com//"
              "/v1/users/" None None (Some "next") empty_world _ _ eq_refl)
    as (i & j & H1 & H2 & H3 & H4 & _).
  do 2 eexists. exists i, j. split; [reflexivity|].
  split; [exact H1|]. split; [exact H2|]. split; [exact H3|exact H4].
Defined.

(** X11. The constructor of [APIExtractor] always returns.  The header
    and parameter dictionaries of the new extractor exist in the store,
    every dictionary that existed before is unchanged, and no collaborator
    is called.  A non-empty parameter dictionary that was passed in is
    shared with the caller; an empty one is replaced by a new empty
    dictionary. *)
Theorem api_init_allocates (name base_url endpoint : string)
    (headers params : option loc) (key : option string) (w : World) :
  exists self w',
    APIExtractor.init name base_url endpoint headers params key w = (Return self, w')
    /\ is_Some (heap w' !! APIExtractor.headers self)
    /\ is_Some (heap w' !! APIExtractor.params self)
    /\ (forall l d, heap w !! l = Some d -> heap w' !! l = Some d)
    /\ calls w' = calls w
    /\ (forall l, params = Some l -> deref w l <> ∅ -> APIExtractor.params self = l)
    /\ (forall l, params = Some l -> is_Some (heap w !! l) -> deref w l = ∅ ->
        APIExtractor.params self <> l /\ deref w' (APIExtractor.params self) = ∅).
Proof.
  unfold APIExtractor.init, bind.
  destruct (or_empty_allocates headers w)
    as (h & w1 & -> & Hh & F1 & C1 & _ & _ & _).
  destruct (or_empty_allocates params w1)
    as (p & w2 & -> & Hp & F2 & C2 & _ & A2 & E2).
  do 2 eexists. split; [reflexivity|]. simpl.
  split; [destruct Hh as [x Hx]; exists x; apply F2, Hx|].
  split; [exact Hp|]. split; [auto|]. split; [congruence|].
  assert (D : forall l, is_Some (heap w !! l) -> deref w1 l = deref w l).
  { intros l [x Hx]. unfold deref. rewrite (F1 l x Hx), Hx. reflexivity. }
  split.
  - intros l -> Hne. apply A2; [reflexivity|].
    rewrite (D l (deref_nonempty_allocated w l Hne)). exact Hne.
  - intros l -> Hl He. apply E2; [reflexivity| |rewrite (D l Hl); exact He].
    destruct Hl as [x Hx]. exists x. apply F1, Hx.
Qed.

(** X12. The constructor of [DatabaseExtractor] always returns, with the
    name, connection string and query as given and a parameter dictionary
    that exists in the store; dictionaries that existed before are
    unchanged.  A non-empty dictionary passed in is shared with the
    caller, a missing or empty one is replaced by a new empty
    dictionary. *)
Theorem database_init_allocates (name con query : string)
    (params : option loc) (w : World) :
  exists p w',
    DatabaseExtractor.init name con query params w
    = (Return (DatabaseExtractor.mk name con query p), w')
    /\ is_Some (heap w' !! p)
    /\ (forall l d, heap w !! l = Some d -> heap w' !! l = Some d)
    /\ (forall l, params = Some l -> deref w l <> ∅ -> p = l /\ w' = w)
    /\ (params = None -> deref w' p = ∅)
    /\ (forall l, params = Some l -> is_Some (heap w !! l) -> deref w l = ∅ ->
        p <> l /\ deref w' p = ∅).
Proof.
  unfold DatabaseExtractor.init, bind.
  destruct (or_empty_cases params w) as [(l & -> & Hne & ->)|[Hd ->]].
  - exists l, w. split; [reflexivity|].
    split; [apply deref_nonempty_allocated, Hne|]. split; [auto|].
    split; [intros l0 [= <-] _; split; reflexivity|].
    split; [discriminate|]. intros l0 [= <-] _ E. contradiction.
  - do 2 eexists. split; [reflexivity|]. simpl.
    split; [rewrite lookup_insert_eq; eauto|].
    split.
    { intros l0 x Hl. rewrite lookup_insert_ne; [exact Hl|].
      intros E. rewrite <- E, fresh_unallocated in Hl. discriminate. }
    split.
    { intros l0 -> Hne. destruct Hd as [Hd|(l1 & [= <-] & Hd)];
        [discriminate|contradiction]. }
    split; [intros _; apply deref_insert|].
    intros l0 -> Hl _. split; [apply allocated_not_fresh, Hl|apply deref_insert].
Qed.

(** ** APIExtractor: pagination in general *)

Lemma skipn_head {A} (n : nat) (l : list A) (x : A) (t : list A) :
  skipn n l = x :: t -> nth_error l n = Some x /\ skipn (S n) l = t.
Proof.
  revert l. induction n as [|n IH]; intros [|y l]; simpl; try discriminate.
  - intros [= -> ->]. split; reflexivity.
  - intros H. apply (IH l H).
Qed.

Lemma gets_requested (self : APIExtractor.t) url p w :
  gets (calls (requested self url p w)) = S (gets (calls w)).
Proof.
  unfold gets, requested; simpl. rewrite filter_app, length_app. simpl. lia.
Qed.

Lemma mock_page_at script frame self url p w resp :
  nth_error script (gets (calls w)) = Some resp ->
  page_at (mock script frame) self url p w
  = match status_error resp with
    | Some e => inl e
    | None => body resp
    end.
Proof. unfold page_at, gets; simpl. intros ->. reflexivity. Qed.

Lemma has_cursor_inv (self : APIExtractor.t) (d : list (string * value)) :
  APIExtractor.has_cursor self d = true ->
  exists k,
    APIExtractor.pagination_key self = Some k /\ Str.truthy k = true
    /\ Py.dict_lookup d k = Some (cursor_value self d)
    /\ Py.truthy (cursor_value self d) = true.
Proof.
  unfold APIExtractor.has_cursor, cursor_value, Py.dict_get.
  destruct (APIExtractor.pagination_key self) as [k|]; [|discriminate].
  intros H. apply andb_true_iff in H as [Hk Hc]. exists k.
  destruct (Py.dict_lookup d k) as [c|]; [|discriminate]. auto.
Qed.

Lemma more_page_turn env self fuel url p acc w d :
  page_at env self url p w = inr (VDict d) ->
  more_page self d = true ->
  APIExtractor.fetch_pages env (S fuel) self url p acc w
  = APIExtractor.fetch_pages env fuel self url p (acc ++ records_of d)%list
      (after_pages self url p [d] w).
Proof.
  intros Hp Hm. apply andb_true_iff in Hm as [Hc Hi].
  destruct (has_cursor_inv self d Hc) as (k & Hk & Hkt & Hl & Ht).
  unfold iterable in Hi. unfold records_of.
  destruct (Py.iterate (items_of d)) as [page|] eqn:E; [|discriminate].
  apply (turn_more env self fuel url p acc w d page k _ Hp E Hk Hkt Hl Ht).
Qed.

(** Going through a run of pages that each carry a cursor. *)
Lemma fetch_through script frame self url p :
  forall ds rest fuel acc w,
    forallb (more_page self) ds = true ->
    skipn (gets (calls w)) script = (map page_response ds ++ rest)%list ->
    APIExtractor.fetch_pages (mock script frame) (length ds + fuel) self url p acc w
    = APIExtractor.fetch_pages (mock script frame) fuel self url p
        (acc ++ concat (map records_of ds))%list (after_pages self url p ds w)
    /\ skipn (gets (calls (after_pages self url p ds w))) script = rest.
Proof.
  induction ds as [|d ds IH]; intros rest fuel acc w Hm Hs.
  - simpl. rewrite app_nil_r. split; [reflexivity|exact Hs].
  - simpl in Hm. apply andb_true_iff in Hm as [Hd Hm].
    simpl in Hs. apply skipn_head in Hs as [Hn Hs].
    assert (Hp : page_at (mock script frame) self url p w = inr (VDict d)).
    { rewrite (mock_page_at script frame self url p w _ Hn). reflexivity. }
    change (length (d :: ds) + fuel)%nat with (S (length ds + fuel)).
    rewrite (more_page_turn _ self _ url p acc w d Hp Hd).
    rewrite <- gets_requested with (self := self) (url := url) (p := p) in Hs.
    destruct (IH rest fuel (acc ++ records_of d)%list
                (after_pages self url p [d] w) Hm Hs) as [E1 E2].
    split; [|exact E2].
    rewrite E1. simpl. rewrite <- app_assoc. reflexivity.
Qed.

Lemma after_pages_frame self url p ds :
  forall w,
    (forall l, l <> p -> heap (after_pages self url p ds w) !! l = heap w !! l)
    /\ logs (after_pages self url p ds w) = logs w.
Proof.
  induction ds as [|d ds IH]; intros w; cbn [after_pages];
    [split; reflexivity|].
  destruct (IH (mkWorld (<[p := <["cursor" := cursor_value self d]> (deref w p)]> (heap w))
                  (calls (requested self url p w)) (logs w))) as [H1 H2].
  split; [|exact H2].
  intros l Hl. rewrite (H1 l Hl). simpl. apply lookup_insert_ne. congruence.
Qed.

(** The requests made on the way, and the one the next turn makes. *)
Lemma after_pages_calls self url p ds :
  forall w x,
    p <> APIExtractor.headers self ->
    calls (requested self url p (after_pages self url p ds w))
    = (calls w
       ++ page_requests self url (deref w (APIExtractor.headers self)) (deref w p)
            (ds ++ [x]))%list.
Proof.
  induction ds as [|d ds IH]; intros w x Hne; [reflexivity|].
  cbn [after_pages]. rewrite (IH _ x Hne).
  cbn [app page_requests calls requested heap logs].
  rewrite deref_insert, (deref_insert_ne w); [|exact Hne].
  rewrite <- app_assoc. reflexivity.
Qed.

Lemma page_requests_length self url h pr ds :
  length (page_requests self url h pr ds) = length ds.
Proof.
  revert pr. induction ds as [|d ds IH]; intros pr; simpl; [reflexivity|].
  rewrite IH. reflexivity.
Qed.

Section Scripted.

Variable self : APIExtractor.t.
Variable script : list Response.
Variable frame : DataFrame.
Variable hp : gmap loc (gmap string value).
Variable lg : list log_record.

Let w : World := mkWorld hp [] lg.
Let p0 : loc := fresh (dom hp).

(** From a history without requests, the loop goes through the cursor
    pages at the head of the script. *)
Lemma extract_through ds rest fuel :
  forallb (more_page self) ds = true ->
  script = (map page_response ds ++ rest)%list ->
  let wk := after_pages self (url_of self) p0 ds (prepared self w) in
  APIExtractor.fetch_pages (mock script frame) (length ds + fuel) self
    (url_of self) p0 [] (prepared self w)
  = APIExtractor.fetch_pages (mock script frame) fuel self (url_of self) p0
      (concat (map records_of ds)) wk
  /\ skipn (gets (calls wk)) script = rest.
Proof.
  intros Hm Hs wk.
  apply (fetch_through script frame self (url_of self) p0 ds rest fuel []
           (prepared self w) Hm).
  exact Hs.
Qed.

Lemma last_request ds x :
  is_Some (hp !! APIExtractor.headers self) ->
  calls (requested self (url_of self) p0
           (after_pages self (url_of self) p0 ds (prepared self w)))
  = page_requests self (url_of self) (deref w (APIExtractor.headers self))
      (deref w (APIExtractor.params self)) (ds ++ [x]).
Proof.
  intros Hh.
  rewrite (after_pages_calls self (url_of self) p0 ds (prepared self w) x).
  - rewrite (prepared_other self w _ Hh).
    change (deref (prepared self w) p0) with (deref (prepared self w) (fresh (dom (heap w)))).
    rewrite (prepared_params self w). reflexivity.
  - apply (allocated_not_fresh w _ Hh).
Qed.

End Scripted.

(** X13. Pagination over any number of pages: when the client answers
    with mapping pages that each carry a truthy cursor, followed by a
    mapping page without one, [extract] issues one request per page, the
    first with the configured parameters and each later one with [cursor]
    set to the cursor value of the page before, and hands the records of
    all pages, concatenated in the order of the pages, to [pd.DataFrame];
    when these records are mappings it returns a result whose data they
    are. *)
Theorem pagination_collects_all_pages (self : APIExtractor.t)
    (ds : list (list (string * value))) (last : list (string * value))
    (frame : DataFrame) (hp : gmap loc (gmap string value))
    (lg : list log_record) (fuel : nat) :
  let w := mkWorld hp [] lg in
  let env := mock (map page_response (ds ++ [last])) frame in
  let records := concat (map records_of (ds ++ [last])) in
  let run := APIExtractor.extract env (S (length ds + fuel)) self w in
  is_Some (hp !! APIExtractor.headers self) ->
  forallb (more_page self) ds = true ->
  APIExtractor.has_cursor self last = false ->
  iterable (items_of last) = true ->
  calls (snd run)
  = page_requests self (url_of self) (deref w (APIExtractor.headers self))
      (deref w (APIExtractor.params self)) (ds ++ [last])
  /\ length (calls (snd run)) = S (length ds)
  /\ outcome_map data (fst run)
     = match pd_DataFrame env records with
       | inr df => Return df
       | inl e => Raise e
       end
  /\ (forallb is_mapping records = true ->
      exists r w',
        run = (Return r, w')
        /\ data r = records
        /\ record_count r = Z.of_nat (length records)).
Proof.
  intros w env records run Hh Hm Hc Hi. subst run env.
  set (script := map page_response (ds ++ [last])).
  assert (Hl : exists w2,
             APIExtractor.fetch_pages (mock script frame) (S (length ds + fuel))
               self (url_of self) (fresh (dom (heap w))) [] (prepared self w)
             = (Return records, w2)
             /\ calls w2
                = page_requests self (url_of self)
                    (deref w (APIExtractor.headers self))
                    (deref w (APIExtractor.params self)) (ds ++ [last])).
  { destruct (extract_through self script frame hp lg ds [page_response last]
                (S fuel) Hm) as [E1 E2]; [subst script; apply map_app|].
    replace (S (length ds + fuel)) with (length ds + S fuel)%nat by lia.
    subst w. cbn [heap]. rewrite E1.
    apply skipn_head in E2 as [Hn _].
    unfold iterable in Hi.
    destruct (Py.iterate (items_of last)) as [page|] eqn:Ei; [|discriminate].
    rewrite (turn_last (mock script frame) self fuel (url_of self) _ _ _ last page);
      [|rewrite (mock_page_at script frame self _ _ _ _ Hn); reflexivity
       |exact Ei|exact Hc].
    eexists. split; [|apply (last_request self hp lg ds last Hh)].
    f_equal. f_equal. subst records.
    rewrite map_app, concat_app. simpl. unfold records_of at 3.
    rewrite Ei. simpl. rewrite app_nil_r. reflexivity. }
  destruct Hl as (w2 & Hl & Hq).
  split; [rewrite api_extract_world, Hl; exact Hq|].
  split.
  { rewrite api_extract_world, Hl. simpl. rewrite Hq.
    rewrite page_requests_length, length_app. simpl. lia. }
  split.
  - rewrite api_extract_run, Hl.
    destruct (pd_DataFrame (mock script frame) records); reflexivity.
  - intros Hr. rewrite (api_extract_returned _ self _ w w2 _ Hl Hr).
    do 2 eexists. split; [reflexivity|]. split; reflexivity.
Qed.

Lemma pagination_collects_all_pages_witness :
  let row := fun n : Z => VDict [("id", VInt n)] in
  let d1 := [("items", VList [row 1]); ("next", VInt 2)] in
  let d2 := [("results", VList [row 2; row 3]); ("next", VStr "p3")] in
  let d3 := [("data", VList [row 4])] in
  let env := mock (map page_response ([d1; d2] ++ [d3])) [] in
  let url := "https://api.example.com/v1/users" in
  let params := <["limit" := VInt 50]> ∅ in
  exists r w',
    APIExtractor.extract env 3 users site = (Return r, w')
    /\ data r = [row 1; row 2; row 3; row 4]
    /\ calls w' = [client_get url ∅ params;
                   client_get url ∅ (<["cursor" := VInt 2]> params);
                   client_get url ∅
                     (<["cursor" := VStr "p3"]> (<["cursor" := VInt 2]> params))].
Proof.
  intros row d1 d2 d3 env url params.
  destruct (pagination_collects_all_pages users [d1; d2] d3 [] (heap site) [] 0)
    as (Hc & _ & _ & H);
    [eexists; reflexivity|reflexivity|reflexivity|reflexivity|].
  destruct (H eq_refl) as (r & w' & E & Hd & _).
  exists r, w'. split; [exact E|]. split; [exact Hd|].
  change (APIExtractor.extract env 3 users site)
    with (APIExtractor.extract (mock (map page_response ([d1; d2] ++ [d3])) [])
            (S (length [d1; d2] + 0)) users (mkWorld (heap site) [] [])) in E.
  rewrite E in Hc. exact Hc.
Defined.

(** X14. A failure in the middle of pagination: when the client answers
    with cursor pages and then with a response whose status check or
    whose JSON decoding raises [e], [extract] raises [e]; the records of
    the pages already fetched are not returned, and no request follows the
    failed one. *)
Theorem failure_discards_fetched_pages (self : APIExtractor.t)
    (ds : list (list (string * value))) (resp : Response) (e : exn)
    (frame : DataFrame) (hp : gmap loc (gmap string value))
    (lg : list log_record) (fuel : nat) :
  let w := mkWorld hp [] lg in
  let env := mock (map page_response ds ++ [resp]) frame in
  is_Some (hp !! APIExtractor.headers self) ->
  forallb (more_page self) ds = true ->
  fails_with resp e ->
  fst (APIExtractor.extract env (S (length ds + fuel)) self w) = Raise e
  /\ length (calls (snd (APIExtractor.extract env (S (length ds + fuel)) self w)))
     = S (length ds).
Proof.
  intros w env Hh Hm Hf. subst env.
  set (script := (map page_response ds ++ [resp])%list).
  rewrite api_extract_run.
  destruct (extract_through self script frame hp lg ds [resp] (S fuel) Hm)
    as [E1 E2]; [reflexivity|].
  replace (S (length ds + fuel)) with (length ds + S fuel)%nat by lia.
  subst w. cbn [heap]. rewrite E1.
  apply skipn_head in E2 as [Hn _].
  rewrite (turn_fails (mock script frame) self fuel (url_of self) _ _ _ e).
  - split; [reflexivity|]. cbn [snd].
    rewrite (last_request self hp lg ds [] Hh).
    rewrite page_requests_length, length_app. simpl. lia.
  - rewrite (mock_page_at script frame self _ _ _ _ Hn).
    unfold fails_with in Hf. destruct (status_error resp); congruence.
Qed.

Lemma failure_discards_fetched_pages_witness :
  let env := mock (map page_response [page_one (VInt 1) (VInt 2)]
                   ++ [mkResponse (Some (Failure "HTTPStatusError")) (inr VNone)]) [] in
  fst (APIExtractor.extract env 2 users site) = Raise (Failure "HTTPStatusError")
  /\ length (calls (snd (APIExtractor.extract env 2 users site))) = 2%nat.
Proof.
  apply (failure_discards_fetched_pages users [page_one (VInt 1) (VInt 2)]
           (mkResponse (Some (Failure "HTTPStatusError")) (inr VNone))
           (Failure "HTTPStatusError") [] (heap site) [] 0).
  - eexists. reflexivity.
  - reflexivity.
  - reflexivity.
Defined.

(** ** APIExtractor: loops that do not end *)

Lemma endless_loop env (self : APIExtractor.t) (d : list (string * value)) url p :
  (forall h u hd pr, http_get env h u hd pr = inr (page_response d)) ->
  more_page self d = true ->
  forall fuel acc w,
    fst (APIExtractor.fetch_pages env fuel self url p acc w) = OutOfFuel
    /\ length (calls (snd (APIExtractor.fetch_pages env fuel self url p acc w)))
       = (length (calls w) + fuel)%nat.
Proof.
  intros Hall Hm. induction fuel as [|fuel IH]; intros acc w.
  - simpl. split; [reflexivity|lia].
  - assert (Hp : page_at env self url p w = inr (VDict d)).
    { unfold page_at. rewrite Hall. reflexivity. }
    rewrite (more_page_turn env self fuel url p acc w d Hp Hm).
    destruct (IH (acc ++ records_of d)%list (after_pages self url p [d] w))
      as [E1 E2].
    split; [exact E1|]. rewrite E2. simpl. rewrite length_app. simpl. lia.
Qed.

(** X15. The loop has no bound of its own: against a client that answers
    every request with a mapping page carrying a truthy cursor, [extract]
    does not return within any number of turns, and it issues one request
    per turn. *)
Theorem endless_cursor_never_returns env (self : APIExtractor.t)
    (d : list (string * value)) (fuel : nat) (w : World) :
  (forall h u hd pr, http_get env h u hd pr = inr (page_response d)) ->
  more_page self d = true ->
  fst (APIExtractor.extract env fuel self w) = OutOfFuel
  /\ length (calls (snd (APIExtractor.extract env fuel self w)))
     = (length (calls w) + fuel)%nat.
Proof.
  intros Hall Hm. rewrite api_extract_run.
  destruct (endless_loop env self d (url_of self) (fresh (dom (heap w))) Hall Hm
              fuel [] (prepared self w)) as [E1 E2].
  destruct (APIExtractor.fetch_pages _ _ _ _ _ _ _) as [[all|e|] w1];
    simpl in *; try discriminate.
  split; [reflexivity|exact E2].
Qed.

Lemma endless_cursor_never_returns_witness :
  let env := constant (page_response (page_one (VInt 1) (VInt 2))) in
  fst (APIExtractor.extract env 40 users site) = OutOfFuel
  /\ length (calls (snd (APIExtractor.extract env 40 users site))) = 40%nat.
Proof.
  apply (endless_cursor_never_returns
           (constant (page_response (page_one (VInt 1) (VInt 2))))
           users (page_one (VInt 1) (VInt 2)) 40 site);
    reflexivity.
Defined.

Lemma scalar_loop env (self : APIExtractor.t) (v : value) url p :
  (forall h u hd pr, http_get env h u hd pr = inr (ok_json v)) ->
  is_scalar v = true ->
  forall fuel acc w,
    APIExtractor.fetch_pages env fuel self url p acc w
    = (OutOfFuel,
       mkWorld (heap w)
         (calls w ++ replicate fuel
                       (client_get url (deref w (APIExtractor.headers self))
                          (deref w p)))%list
         (logs w)).
Proof.
  intros Hall Hv. induction fuel as [|fuel IH]; intros acc w.
  - simpl. rewrite app_nil_r. destruct w; reflexivity.
  - assert (Hp : page_at env self url p w = inr v).
    { unfold page_at. rewrite Hall. reflexivity. }
    rewrite (turn_decoded env self fuel url p acc w v Hp).
    destruct v; try discriminate; rewrite IH; simpl; rewrite <- app_assoc;
      reflexivity.
Qed.

(** X16. A response body that is neither a sequence nor a mapping (a
    number, a string, a boolean, null) is neither an error nor a page: the
    loop repeats the same request, with unchanged parameters, and
    [extract] does not return within any number of turns. *)
Theorem scalar_body_is_requested_again env (self : APIExtractor.t) (v : value)
    (fuel : nat) (w : World) :
  is_Some (heap w !! APIExtractor.headers self) ->
  is_scalar v = true ->
  (forall h u hd pr, http_get env h u hd pr = inr (ok_json v)) ->
  fst (APIExtractor.extract env fuel self w) = OutOfFuel
  /\ calls (snd (APIExtractor.extract env fuel self w))
     = (calls w
        ++ replicate fuel
             (client_get (url_of self) (deref w (APIExtractor.headers self))
                (deref w (APIExtractor.params self))))%list.
Proof.
  intros Hh Hv Hall. rewrite api_extract_run.
  rewrite (scalar_loop env self v (url_of self) _ Hall Hv). simpl.
  rewrite prepared_params, (prepared_other self w _ Hh).
  split; reflexivity.
Qed.

Lemma scalar_body_is_requested_again_witness :
  let env := constant (ok_json (VStr "maintenance")) in
  let request :=
    client_get "https://api.example.com/v1/users" ∅ (<["limit" := VInt 50]> ∅) in
  fst (APIExtractor.extract env 3 users site) = OutOfFuel
  /\ calls (snd (APIExtractor.extract env 3 users site))
     = [request; request; request].
Proof.
  apply (scalar_body_is_requested_again (constant (ok_json (VStr "maintenance")))
           users (VStr "maintenance") 3 site site_headers);
    reflexivity.
Defined.

(** ** APIExtractor: one mapping page *)

Lemma first_present_items (d : list (string * value)) (v : value) :
  first_present d v -> items_of d = v.
Proof.
  unfold first_present, items_of, Py.dict_get.
  intros [H|[[H1 H2]|[(H1 & H2 & H3)|(H1 & H2 & H3 & ->)]]].
  - rewrite H. reflexivity.
  - rewrite H1, H2. reflexivity.
  - rewrite H1, H2, H3. reflexivity.
  - rewrite H1, H2, H3. reflexivity.
Qed.

(** X17. A mapping response without a truthy value under the pagination
    key (or with no key configured) ends the extraction after that one
    request.  The records handed to [pd.DataFrame] are those under [data]
    when the key [data] is present, else those under [items], else those
    under [results], else none; when they are mappings, [extract] returns
    a result whose data they are. *)
Theorem mapping_page_without_cursor env (self : APIExtractor.t) (fuel : nat)
    (w : World) (d : list (string * value)) (v : value) (page : list value) :
  let run := APIExtractor.extract env (S fuel) self w in
  let request := client_get (url_of self) (deref w (APIExtractor.headers self))
                   (deref w (APIExtractor.params self)) in
  is_Some (heap w !! APIExtractor.headers self) ->
  http_get env (calls w) (url_of self) (deref w (APIExtractor.headers self))
    (deref w (APIExtractor.params self)) = inr (page_response d) ->
  APIExtractor.has_cursor self d = false ->
  first_present d v ->
  Py.iterate v = Some page ->
  calls (snd run) = (calls w ++ [request])%list
  /\ outcome_map data (fst run)
     = match pd_DataFrame env page with
       | inr df => Return df
       | inl e => Raise e
       end
  /\ (forallb is_mapping page = true ->
      exists r w',
        run = (Return r, w')
        /\ data r = page
        /\ calls w' = (calls w ++ [request])%list).
Proof.
  intros run request Hh Hg Hc Hv Hi. subst run request.
  apply first_present_items in Hv.
  assert (Hl : APIExtractor.fetch_pages env (S fuel) self (url_of self)
                 (fresh (dom (heap w))) [] (prepared self w)
               = (Return page, requested self (url_of self) (fresh (dom (heap w)))
                                 (prepared self w))).
  { apply (turn_last env self fuel (url_of self) _ [] (prepared self w) d page).
    - apply (page_at_ok env self _ _ _ (page_response d)); try reflexivity.
      rewrite prepared_params, (prepared_other self w _ Hh). exact Hg.
    - rewrite Hv. exact Hi.
    - exact Hc. }
  assert (Hq : calls (requested self (url_of self) (fresh (dom (heap w)))
                        (prepared self w))
               = (calls w ++ [client_get (url_of self)
                                (deref w (APIExtractor.headers self))
                                (deref w (APIExtractor.params self))])%list).
  { unfold requested; simpl.
    rewrite prepared_params, (prepared_other self w _ Hh). reflexivity. }
  split; [rewrite api_extract_world, Hl; exact Hq|].
  split.
  - rewrite api_extract_run, Hl. destruct (pd_DataFrame env page); reflexivity.
  - intros Hm. rewrite (api_extract_returned env self _ _ _ _ Hl Hm).
    do 2 eexists. split; [reflexivity|]. split; [reflexivity|exact Hq].
Qed.

Lemma mapping_page_without_cursor_witness :
  let ann := VDict [("id", VInt 1); ("name", VStr "Ann")] in
  let bob := VDict [("id", VInt 2)] in
  let d := [("results", VList [VDict [("id", VInt 9)]]); ("items", VList [ann; bob]);
            ("next", VStr "")] in
  exists r w',
    APIExtractor.extract (mock [page_response d] []) 1 users site = (Return r, w')
    /\ data r = [ann; bob]
    /\ calls w' = [client_get "https://api.example.com/v1/users" ∅
                     (<["limit" := VInt 50]> ∅)].
Proof.
  intros ann bob d.
  destruct (mapping_page_without_cursor (mock [page_response d] []) users 0 site d
              (VList [ann; bob]) [ann; bob] site_headers) as (_ & _ & H);
    try reflexivity.
  - right. left. split; reflexivity.
  - apply H. reflexivity.
Defined.

(** X18. There is no fallback past a key that is present: when the value
    under the first present of [data], [items], [results] cannot be
    iterated (null, a number, a boolean), [extract] raises [TypeError],
    whether or not the page carries a cursor and whatever the other two
    keys hold. *)
Theorem uniterable_records_raise env (self : APIExtractor.t) (fuel : nat)
    (w : World) (d : list (string * value)) (v : value) :
  is_Some (heap w !! APIExtractor.headers self) ->
  http_get env (calls w) (url_of self) (deref w (APIExtractor.headers self))
    (deref w (APIExtractor.params self)) = inr (page_response d) ->
  first_present d v ->
  Py.iterate v = None ->
  fst (APIExtractor.extract env (S fuel) self w)
  = Raise (TypeError "object is not iterable").
Proof.
  intros Hh Hg Hv Hi. apply first_present_items in Hv.
  rewrite api_extract_run.
  rewrite (turn_decoded env self fuel (url_of self) _ [] (prepared self w) (VDict d)).
  - rewrite Hv, Hi. reflexivity.
  - apply (page_at_ok env self _ _ _ (page_response d)); try reflexivity.
    rewrite prepared_params, (prepared_other self w _ Hh). exact Hg.
Qed.

Lemma uniterable_records_raise_witness :
  let d := [("data", VNone); ("items", VList [VInt 1; VInt 2])] in
  fst (APIExtractor.extract (mock [page_response d] []) 1 users site)
  = Raise (TypeError "object is not iterable").
Proof.
  intros d.
  apply (uniterable_records_raise (mock [page_response d] []) users 0 site d VNone
           site_headers); try reflexivity.
  left. reflexivity.
Defined.

(** ** Witnesses and metadata *)

Lemma site_params_nonempty : deref site 2%positive <> ∅.
Proof.
  intros E. assert (X : deref site 2%positive !! "limit" = None)
    by (rewrite E; reflexivity).
  vm_compute in X. discriminate X.
Qed.

Lemma api_init_allocates_witness :
  exists self w',
    APIExtractor.init "users" "https://api.example.com" "v1/users" None
      (Some 2%positive) None site = (Return self, w')
    /\ APIExtractor.params self = 2%positive
    /\ is_Some (heap w' !! APIExtractor.headers self).
Proof.
  destruct (api_init_allocates "users" "https://api.example.com" "v1/users" None
              (Some 2%positive) None site)
    as (self & w' & H & Hh & _ & _ & _ & A & _).
  exists self, w'. split; [exact H|]. split; [|exact Hh].
  apply (A 2%positive eq_refl site_params_nonempty).
Defined.

Lemma database_init_allocates_witness :
  exists p w',
    DatabaseExtractor.init "orders" "sqlite:///shop.db" "SELECT 1"
      (Some 1%positive) shop
    = (Return (DatabaseExtractor.mk "orders" "sqlite:///shop.db" "SELECT 1" p), w')
    /\ p <> 1%positive /\ deref w' p = ∅.
Proof.
  destruct (database_init_allocates "orders" "sqlite:///shop.db" "SELECT 1"
              (Some 1%positive) shop)
    as (p & w' & H & _ & _ & _ & _ & E).
  exists p, w'. split; [exact H|].
  apply (E 1%positive eq_refl shop_params). reflexivity.
Defined.

(** X19. The metadata of the two database methods differ: a result of
    [extract] records the query text and a reference to the parameter
    dictionary and has no [incremental] entry; a result of
    [extract_incremental] records [incremental = True] and [since] (the ISO
    text of the timestamp, or [None]) and has no [query] entry, not even
    for the rewritten query. *)
Theorem database_metadata env (self : DatabaseExtractor.t) (w w' : World)
    (r : ExtractionResult) :
  (DatabaseExtractor.extract env self w = (Return r, w') ->
   metadata r !! "query" = Some (VStr (DatabaseExtractor.query self))
   /\ metadata r !! "params" = Some (VRef (DatabaseExtractor.params self))
   /\ metadata r !! "incremental" = None)
  /\ (forall since col,
        DatabaseExtractor.extract_incremental env self since col w = (Return r, w') ->
        metadata r !! "incremental" = Some (VBool true)
        /\ metadata r !! "since"
           = Some (match since with
                   | Some T => VStr (isoformat env T)
                   | None => VNone
                   end)
        /\ metadata r !! "query" = None).
Proof.
  split.
  - rewrite db_extract_run; simpl.
    destruct (read_sql env _ _ _ _); intros [= <- <-]. repeat split.
  - intros [T|] col.
    + rewrite db_incremental_some_run; simpl.
      destruct (read_sql env _ _ _ _); intros [= <- <-]. repeat split.
    + rewrite db_incremental_none_run; simpl.
      destruct (read_sql env _ _ _ _); intros [= <- <-]. repeat split.
Qed.

Lemma database_metadata_witness :
  exists r w',
    DatabaseExtractor.extract_incremental (mock [] [VInt 7]) orders (Some 5)
      "updated_at" shop = (Return r, w')
    /\ metadata r !! "since" = Some (VStr "1970-01-01T00:00:00")
    /\ metadata r !! "query" = None.
Proof.
  do 2 eexists. split; [reflexivity|].
  destruct (proj2 (database_metadata (mock [] [VInt 7]) orders shop _ _)
              (Some 5) "updated_at" eq_refl) as (_ & H1 & H2).
  split; [exact H1|exact H2].
Defined.

(** ** Building the frame *)

(** When [pd.DataFrame] refuses the accumulated records, [extract] raises
    its exception, after the requests were made. *)
Lemma frame_failure_propagates env (self : APIExtractor.t) (fuel : nat)
    (w w' : World) (all_data : list value) (e : exn) :
  APIExtractor.fetch_pages env fuel self (url_of self)
    (fresh (dom (heap w))) [] (prepared self w) = (Return all_data, w') ->
  pd_DataFrame env all_data = inl e ->
  APIExtractor.extract env fuel self w = (Raise e, w').
Proof. intros H He. rewrite api_extract_run, H, He. reflexivity. Qed.

(** A sequence that mixes a mapping with a number reaches the frame
    constructor, which the test double lets refuse it. *)
Example mixed_records_example :
  let env := mock [ok_json (VList [VDict [("a", VInt 1)]; VInt 2])] [] in
  fst (APIExtractor.extract env 1 users site) = Raise (Failure "ValueError")
  /\ length (calls (snd (APIExtractor.extract env 1 users site))) = 1%nat.
Proof. vm_compute. split; reflexivity. Qed.
